(* ===== verification/_CoqProject ===== *)
-Q . S2P
Prelude.v
Effects.v
Libraries.v
Extractor.v
Prompt.v
Summarizer.v
App.v
Race.v
Runs.v
Sessions.v
