(* ===== verification/Prelude.v ===== *)
(** * A verification development for gemini-paper-summarizer

    The program, [src/app.py], is a Streamlit script that summarises an
    English paper in Japanese.  It has three parts:
    - [extract_text_from_pdf] (lines 7-17) reads the uploaded PDF with pypdf
      and joins the page texts; any exception becomes an [st.error] and [None];
    - [summarize_text] (lines 19-72) configures the process-wide
      google.generativeai key, builds a fixed Japanese prompt around the text
      (lines 25-66), sends one request to Gemini and returns the reply's text;
      any exception becomes an [st.error] and [None];
    - the script body (lines 76-113), run from the top by Streamlit on every
      interaction: title and sidebar, [st.stop()] when the deployment secret
      has no key, the model selectbox, the uploader, the button, and on a
      click the pipeline extract -> summarize -> render.
    They interact by calls only; the state they share is the page being
    drawn, the genai module's key (a process global written by line 22 and
    read by line 68) and the requests sent to the service.

    ** Files, in dependency order
    - [Prelude] (this file): a state-and-exception monad [StE] with its laws,
      its notation ([ste_scope]) and a setoid equivalence [meq]; Python
      truthiness of strings; string lemmas (prefix, substring, strip,
      occurrence in order); lists updated by index ([set_nth]); shuffles of
      lists ([interleaves], with a [Proper] instance for pointwise equal
      families); the hint databases [app_db] and [run_db] and the shared
      tactics.
    - [Effects]: Python exceptions ([PyExc]: [Exc msg] for an [Exception],
      [StopException] for [st.stop()]), page elements ([Element]), requests,
      the [World] (genai key, page, request log), the monad [M] on it and the
      Streamlit primitives ([st_error], [st_spinner], [st_stop], ...).
    - [Libraries]: pypdf and google.generativeai as classes [PdfLib] and
      [GenAILib]; every theorem holds for every instance.  [generate_content]
      sends with the key the module holds at the time of the call.  Mock
      instances serve the witnesses.
    - [Extractor] (Module [Extractor]): [extract_pages_loop] and
      [extract_text_from_pdf], against the reference [pdf_text].
    - [Prompt] (Module [Prompt]): the template line by line, [build_prompt],
      and the seven section headings.
    - [Summarizer] (Module [Summarizer]): [summarize_text].
    - [App] (Module [App]): the widgets, [run_pipeline] (lines 98-108),
      [app_script] (lines 76-113), Streamlit's runner [run_script], and the
      process as a relation [rerun] with its closure [reachable]; the
      reference behaviour [script_result]/[pipeline_effect].
    - [Race] (Module [Race]): [summarize_text] cut into atomic actions
      ([sum_step]) and interleaved by a schedule ([run_schedule]), for the
      sessions a Streamlit process serves concurrently.
    - [Runs] (Module [Runs]): the deployed app over many reruns:
      [run_sessions] folds [run_script] over the sessions that trigger the
      reruns; no exception reaches the runner, and requests are bounded by
      clicks.
    - [Sessions] (Module [Sessions]): concurrent script runs of several
      browser sessions, each with its own page ([SessionRun]), sharing the
      genai key and the request log ([Shared]).  A run is cut into atomic
      actions ([session_step]): the script up to the call of line 104
      ([script_prefix]), the three actions of [Race.sum_step], and the rest
      ([script_suffix]); Streamlit's runner closes each action ([settle]);
      [run_interleaved] runs the sessions by any schedule.

    ** What is proved
    - Functional behaviour on every branch: [Extractor.extract_text_from_pdf_spec],
      [Summarizer.summarize_text_spec], [App.run_script_correct] (one run
      equals [script_result]), and the scenario theorems of [App] (summary
      shown, extraction failure, API failure, empty text, empty reply).
    - Equivalence: the accumulation loop of lines 11-13 is a fold of
      string append ([Extractor.extract_pages_loop_correct]).
    - Round trip: the document can be read back from the prompt
      ([Prompt.prompt_document_build_prompt]); the headings precede it in
      order ([Prompt.build_prompt_layout]).
    - Invariants over all reruns, by induction on [reachable]: a deployment
      without a key never sends anything and only shows the administrator
      message; every request carries the deployment key.
    - Safety of one run: at most one request, only after a click with a file
      whose text is not empty; the key warning of line 111 is unreachable.
    - Concurrency: two calls with different keys can send under each
      other's key; calls that share one key (the script's case) are safe
      under every schedule.
    - Composition of whole runs ([Sessions]): on one deployment,
      under any schedule, each session is in exactly the state its run
      alone reaches after as many actions, in any process state
      ([interleaved_session_alone], by projecting the interleaved execution
      onto each session under the invariant [run_inv]); every request
      carries the deployment's secret; the requests added to the log are a
      shuffle ([interleaves], this file) of what each session sends alone,
      each session's in its order ([interleaved_requests_shuffle]); a
      schedule giving each session five actions ends every run, with the
      page of [run_script] ([fair_sessions_finish], the liveness result).
    - Bounds: the prompt is the text plus exactly 1518 bytes
      ([Prompt.build_prompt_length]); the process sends at most one request
      per click ([Runs.run_sessions_requests_bounded]).
    - Errors: no exception ever reaches Streamlit's runner
      ([Runs.run_script_no_exception]).

    ** Bounds and fuel
    Nothing here needs fuel: every loop of the program is over a finite list
    (pages, schedules) and is modelled by structural recursion, so every
    definition is total and computes; a whole script run alone ends within
    five actions in [Sessions] (the prefix, the three actions of the call,
    the rest: [Sessions.run_alone_eq]); extra actions of a finished run do
    nothing.  Strings are Rocq byte strings holding the UTF-8 encoding of
    Python's [str] values: the program only joins them and tests them for
    emptiness, which both commute with the encoding; lengths are counted
    in bytes ([Prompt.build_prompt_length]).

    ** Not modelled
    The PDF parser, the Gemini model and the HTTP client (third-party: they
    are interfaces); Streamlit's rendering and browser side (I/O), including
    the uploader's [type="pdf"] filter, which the browser's file picker
    applies; the byte buffer [io.BytesIO(uploaded_file.getvalue())] (it
    passes the bytes through unchanged); the timing of spinners (only their
    start and end on the page).  In [Race] alone the concurrent calls share
    one page; [Sessions] gives every session its own.  The parts of a run
    that only draw on the session's own page (the prefix up to line 104,
    the rest after it) are single actions in [Sessions]: finer cuts there
    touch no shared state and cannot change what another session sees.

    ** Plan for later work
    Every function and every line of the script body is modelled; what is
    left are the libraries' internals, listed above.  Sessions of one
    process never read different secrets (the secret is the
    deployment's); [Race.interleaved_calls_swap_keys] shows what would go
    wrong if they did. *)

From Stdlib Require Import String Ascii List Bool Lia PeanoNat.
From Stdlib Require Import Morphisms RelationClasses Setoid.
Import ListNotations.

(** ** A state-and-exception monad

    Python code threads two effects through every call of [src/app.py]:
    mutation of process- and page-level state (the Streamlit page, the
    [google.generativeai] module configuration) and exceptions.  [StE S E A]
    is a computation on a state [S] that returns an [A] or raises an [E];
    the state reached before a raise is kept, as in Python. *)

Inductive outcome (E A : Type) : Type :=
| Ret (a : A)
| Raise (e : E).
Arguments Ret {E A} a.
Arguments Raise {E A} e.

Definition StE (S E A : Type) : Type := S -> outcome E A * S.

Section StE.
Context {S E : Type}.

Definition ret {A} (a : A) : StE S E A := fun s => (Ret a, s).

Definition bind {A B} (c : StE S E A) (f : A -> StE S E B) : StE S E B :=
  fun s => match c s with
           | (Ret a, s') => f a s'
           | (Raise e, s') => (Raise e, s')
           end.

Definition raise {A} (e : E) : StE S E A := fun s => (Raise e, s).

Definition modify (f : S -> S) : StE S E unit := fun s => (Ret tt, f s).

Definition gets {A} (f : S -> A) : StE S E A := fun s => (Ret (f s), s).

(** [try: c / except <exceptions selected by sel> as x: h x]: the
    exceptions for which [sel] answers [None] propagate unchanged. *)
Definition try_except {A X} (sel : E -> option X) (c : StE S E A)
    (h : X -> StE S E A) : StE S E A :=
  fun s => match c s with
           | (Raise e, s') =>
               match sel e with
               | Some x => h x s'
               | None => (Raise e, s')
               end
           | r => r
           end.

(** [try: c / finally: fin]: [fin] runs on both exits of [c]. *)
Definition try_finally {A} (c : StE S E A) (fin : StE S E unit) : StE S E A :=
  fun s => let '(o, s') := c s in
           match fin s' with
           | (Ret _, s'') => (o, s'')
           | (Raise e, s'') => (Raise e, s'')
           end.

(** Two computations are equivalent when they agree on every state. *)
Definition meq {A} (c1 c2 : StE S E A) : Prop := forall s, c1 s = c2 s.

#[export] Instance meq_equiv {A} : Equivalence (@meq A).
Proof.
  split; unfold meq; [ now intros c s
                     | intros c1 c2 H s; now rewrite H
                     | intros c1 c2 c3 H1 H2 s; now rewrite H1, H2 ].
Qed.

#[export] Instance bind_proper {A B} :
  Proper (meq ==> pointwise_relation A meq ==> meq) (@bind A B).
Proof.
  intros c1 c2 Hc f1 f2 Hf s. unfold bind. rewrite Hc.
  destruct (c2 s) as [[a|e] s']; [apply Hf | reflexivity].
Qed.

Lemma bind_ret_l {A B} (a : A) (f : A -> StE S E B) : meq (bind (ret a) f) (f a).
Proof. intro s. reflexivity. Qed.

(** Run equations, used by [autorewrite with run_db]. *)
Lemma run_bind_Ret {A B} (c : StE S E A) (f : A -> StE S E B) s a s' :
  c s = (Ret a, s') -> bind c f s = f a s'.
Proof. unfold bind. now intros ->. Qed.

Lemma run_bind_Raise {A B} (c : StE S E A) (f : A -> StE S E B) s e s' :
  c s = (Raise e, s') -> bind c f s = (Raise e, s').
Proof. unfold bind. now intros ->. Qed.
End StE.

Declare Scope ste_scope.
Delimit Scope ste_scope with ste.
Notation "x <- c1 ;; c2" := (bind c1 (fun x => c2))
  (at level 61, c1 at next level, right associativity) : ste_scope.
Notation "c1 ;; c2" := (bind c1 (fun _ => c2))
  (at level 61, right associativity) : ste_scope.

(** ** Python truthiness of strings and optional strings *)

Local Open Scope string_scope.

(** [bool(s)] for a [str]: false exactly on the empty string. *)
Definition str_truthy (s : string) : bool := negb (String.eqb s "").

(** [bool(x)] for a value that is [None] or a [str]. *)
Definition opt_str_truthy (o : option string) : bool :=
  match o with Some s => str_truthy s | None => false end.

(** ** String lemmas *)

Lemma append_assoc (a b c : string) : (a ++ b) ++ c = a ++ (b ++ c).
Proof. induction a as [|x a IH]; simpl; [reflexivity | now rewrite IH]. Qed.

Lemma append_nil_r (a : string) : a ++ "" = a.
Proof. induction a as [|x a IH]; simpl; [reflexivity | now rewrite IH]. Qed.

Lemma length_append (a b : string) :
  String.length (a ++ b) = String.length a + String.length b.
Proof. induction a as [|x a IH]; simpl; [reflexivity | now rewrite IH]. Qed.

(** [s.removeprefix(p)] that also reports whether [p] was there. *)
Fixpoint strip_prefix (p s : string) : option string :=
  match p, s with
  | EmptyString, _ => Some s
  | String x p', String y s' => if ascii_dec x y then strip_prefix p' s' else None
  | String _ _, EmptyString => None
  end.

Lemma strip_prefix_app (p t : string) : strip_prefix p (p ++ t) = Some t.
Proof.
  induction p as [|x p IH]; simpl; [reflexivity|].
  destruct (ascii_dec x x); [exact IH | congruence].
Qed.

Lemma strip_prefix_Some (p s t : string) : strip_prefix p s = Some t -> s = p ++ t.
Proof.
  revert s. induction p as [|x p IH]; intros [|y s]; simpl; try congruence.
  destruct (ascii_dec x y) as [<-|]; [intros H; now rewrite (IH s H) | discriminate].
Qed.

(** Reversal of a string, through its list of characters. *)
Definition rev_str (s : string) : string :=
  string_of_list_ascii (rev (list_ascii_of_string s)).

Lemma list_ascii_of_string_app (a b : string) :
  list_ascii_of_string (a ++ b) = (list_ascii_of_string a ++ list_ascii_of_string b)%list.
Proof. induction a as [|x a IH]; simpl; [reflexivity | now rewrite IH]. Qed.

Lemma string_of_list_ascii_app (l1 l2 : list ascii) :
  string_of_list_ascii (l1 ++ l2) = string_of_list_ascii l1 ++ string_of_list_ascii l2.
Proof. induction l1 as [|x l IH]; simpl; [reflexivity | now rewrite IH]. Qed.

Lemma rev_str_app (a b : string) : rev_str (a ++ b) = rev_str b ++ rev_str a.
Proof.
  unfold rev_str. now rewrite list_ascii_of_string_app, rev_app_distr, string_of_list_ascii_app.
Qed.

Lemma rev_str_involutive (s : string) : rev_str (rev_str s) = s.
Proof.
  unfold rev_str. now rewrite list_ascii_of_string_of_list_ascii, rev_involutive,
    string_of_list_ascii_of_string.
Qed.

(** [s.removesuffix(suf)] that also reports whether [suf] was there. *)
Definition strip_suffix (suf s : string) : option string :=
  option_map rev_str (strip_prefix (rev_str suf) (rev_str s)).

Lemma strip_suffix_app (t suf : string) : strip_suffix suf (t ++ suf) = Some t.
Proof.
  unfold strip_suffix. rewrite rev_str_app, strip_prefix_app. simpl.
  now rewrite rev_str_involutive.
Qed.

(** ** Occurrence of substrings in order *)

(** [in_order subs s]: the strings [subs] occur in [s] one after the
    other, without overlapping. *)
Inductive in_order : list string -> string -> Prop :=
| in_order_nil s : in_order [] s
| in_order_cons a sub s subs :
    in_order subs s -> in_order (sub :: subs) (a ++ sub ++ s).

(** The rest of [s] after the first occurrence of [sub]. *)
Fixpoint after_first (sub s : string) : option string :=
  match strip_prefix sub s with
  | Some r => Some r
  | None =>
      match s with
      | EmptyString => None
      | String _ s' => after_first sub s'
      end
  end.

(** An executable test of [in_order], by greedy search. *)
Fixpoint occurs_in_order (subs : list string) (s : string) : bool :=
  match subs with
  | [] => true
  | sub :: rest =>
      match after_first sub s with
      | Some r => occurs_in_order rest r
      | None => false
      end
  end.

Lemma after_first_Some (sub s r : string) :
  after_first sub s = Some r -> exists a, s = a ++ sub ++ r.
Proof.
  induction s as [|c s IH]; simpl; destruct (strip_prefix sub _) eqn:E;
    intros H; try discriminate.
  - injection H as <-. exists "". exact (strip_prefix_Some _ _ _ E).
  - injection H as <-. exists "". exact (strip_prefix_Some _ _ _ E).
  - destruct (IH H) as (a & ->). now exists (String c a).
Qed.

Lemma occurs_in_order_sound (subs : list string) (s : string) :
  occurs_in_order subs s = true -> in_order subs s.
Proof.
  revert s. induction subs as [|sub subs IH]; intros s; simpl; [constructor|].
  destruct (after_first sub s) as [r|] eqn:E; [|discriminate].
  intros H. destruct (after_first_Some _ _ _ E) as (a & ->). constructor. now apply IH.
Qed.

Lemma in_order_single (sub s : string) : in_order [sub] (sub ++ s).
Proof. exact (in_order_cons "" sub s [] (in_order_nil s)). Qed.

Lemma in_order_prepend (subs : list string) (a s : string) :
  in_order subs s -> in_order subs (a ++ s).
Proof.
  intros [s0|a0 sub s0 subs0 H]; [constructor|].
  rewrite <- append_assoc. now constructor.
Qed.

Lemma in_order_app (subs1 subs2 : list string) (s1 s2 : string) :
  in_order subs1 s1 -> in_order subs2 s2 -> in_order (subs1 ++ subs2)%list (s1 ++ s2).
Proof.
  intros H1 H2. induction H1 as [s|a sub s subs H IH]; simpl.
  - now apply in_order_prepend.
  - rewrite !append_assoc. now constructor.
Qed.

(** ["".join(ts)] *)
Definition str_concat (ts : list string) : string := fold_right append "" ts.

(** The accumulator loop [acc += t] for each [t] computes [acc + "".join(ts)]. *)
Lemma fold_append_concat (ts : list string) (acc : string) :
  fold_left append ts acc = acc ++ str_concat ts.
Proof.
  revert acc. induction ts as [|t ts IH]; intros acc; simpl.
  - now rewrite append_nil_r.
  - now rewrite IH, append_assoc.
Qed.

(** ** Lists updated by index *)

(** [l[i] = x], leaving [l] alone out of range. *)
Fixpoint set_nth {A} (i : nat) (x : A) (l : list A) : list A :=
  match l, i with
  | [], _ => []
  | _ :: l', 0 => x :: l'
  | y :: l', S i' => y :: set_nth i' x l'
  end.


Lemma Forall_set_nth {A} (P : A -> Prop) i x l :
  Forall P l -> P x -> Forall P (set_nth i x l).
Proof.
  revert i. induction l as [|y l IH]; intros [|i] Hl Hx; simpl; auto;
    inversion Hl; constructor; auto.
Qed.

Lemma Forall_nth_error {A} (P : A -> Prop) i x l :
  Forall P l -> nth_error l i = Some x -> P x.
Proof.
  intros Hl Hi. rewrite Forall_forall in Hl. apply Hl. eapply nth_error_In; eauto.
Qed.

Lemma length_set_nth {A} i (x : A) l : length (set_nth i x l) = length l.
Proof. revert i. induction l as [|y l IH]; intros [|i]; simpl; auto. Qed.

Lemma nth_error_set_nth_eq {A} i (x : A) l :
  i < length l -> nth_error (set_nth i x l) i = Some x.
Proof.
  revert i. induction l as [|y l IH]; intros [|i] Hi; simpl in *; try lia; auto.
  apply IH. lia.
Qed.

Lemma nth_error_set_nth_ne {A} i j (x : A) l :
  i <> j -> nth_error (set_nth i x l) j = nth_error l j.
Proof.
  revert i j. induction l as [|y l IH]; intros [|i] [|j] Hij; simpl; auto; try lia.
Qed.

(** ** Interleavings *)

(** [fupd L i li] is [L] with [L i] replaced by [li]. *)
Definition fupd {A} (L : nat -> A) (i : nat) (a : A) : nat -> A :=
  fun j => if Nat.eqb j i then a else L j.

(** [interleaves L l]: [l] is a shuffle of the lists [L 0], [L 1], ...,
    each kept in its own order: its first element is the head of one of
    them, and the rest interleaves what is left. *)
Inductive interleaves {A} : (nat -> list A) -> list A -> Prop :=
| il_nil L : (forall i, L i = []) -> interleaves L []
| il_cons L i x li l :
    L i = x :: li -> interleaves (fupd L i li) l -> interleaves L (x :: l).

Lemma fupd_ext {A} (L L' : nat -> A) i a :
  (forall j, L j = L' j) -> forall j, fupd L i a j = fupd L' i a j.
Proof. intros H j. unfold fupd. now rewrite H. Qed.

Lemma interleaves_ext {A} (L L' : nat -> list A) l :
  (forall j, L j = L' j) -> interleaves L l -> interleaves L' l.
Proof.
  intros HL Hl. revert L' HL. induction Hl as [L Hn|L i x li l Hi Hl IH]; intros L' HL.
  - constructor. intros j. now rewrite <- HL.
  - apply (il_cons L' i x li l); [now rewrite <- HL|]. apply IH. now apply fupd_ext.
Qed.

#[export] Instance interleaves_proper {A} :
  Proper (pointwise_relation nat eq ==> eq ==> iff) (@interleaves A).
Proof.
  intros L L' HL l ? <-. split; apply interleaves_ext; [exact HL|]. intros j. now rewrite HL.
Qed.

Lemma fupd_fupd {A} (L : nat -> A) i a b j : fupd (fupd L i a) i b j = fupd L i b j.
Proof. unfold fupd. now destruct (Nat.eqb j i). Qed.

Lemma fupd_same {A} (L : nat -> A) i j : fupd L i (L i) j = L j.
Proof. unfold fupd. destruct (Nat.eqb j i) eqn:E; [apply Nat.eqb_eq in E; now subst|reflexivity]. Qed.

(** A chunk [c] taken at once from the front of [L i]. *)
Lemma interleaves_app {A} (L : nat -> list A) i c li l :
  L i = (c ++ li)%list -> interleaves (fupd L i li) l -> interleaves L (c ++ l)%list.
Proof.
  revert L. induction c as [|x c IH]; intros L Hi Hl; simpl in *.
  - rewrite <- Hi in Hl. eapply interleaves_ext; [|exact Hl]. apply fupd_same.
  - apply (il_cons L i x (c ++ li)); [exact Hi|]. apply IH.
    + unfold fupd. now rewrite Nat.eqb_refl.
    + eapply interleaves_ext; [|exact Hl]. intros j. symmetry. apply fupd_fupd.
Qed.

(** A shuffle of one list is that list. *)
Lemma interleaves_one {A} (L : nat -> list A) l :
  interleaves L l -> (forall j, j <> 0 -> L j = []) -> l = L 0.
Proof.
  induction 1 as [L Hn|L i x li l Hi Hl IH]; intros H0; [now rewrite Hn|].
  destruct (Nat.eq_dec i 0) as [->|Hne]; [|now rewrite H0 in Hi].
  rewrite Hi, IH; [unfold fupd; reflexivity|].
  intros j Hj. unfold fupd. apply Nat.eqb_neq in Hj. rewrite Hj. apply H0.
  now apply Nat.eqb_neq.
Qed.

(** ** Iterating a step function *)

(** A fixed point of [f] stays put. *)
Lemma iter_fixed {A} (f : A -> A) x n : f x = x -> Nat.iter n f x = x.
Proof. intros Hx. induction n as [|n IH]; simpl; [reflexivity|]. now rewrite IH. Qed.

(** ** Bytes *)

(** A Python [bytes] object. *)
Definition bytes : Type := list Byte.byte.

(** ** Automation shared by the components *)

Create HintDb app_db discriminated.
Create Rewrite HintDb run_db.

#[export] Hint Resolve in_order_single in_order_app : app_db.
#[export] Hint Rewrite append_assoc append_nil_r strip_prefix_app strip_suffix_app : run_db.
#[export] Hint Rewrite length_append : run_db.
#[export] Hint Rewrite @run_bind_Ret @run_bind_Raise using assumption : run_db.

(** Close an equation between worlds built by appending to lists. *)
Ltac list_eq := repeat rewrite <- ?app_assoc, ?app_nil_r; reflexivity.
