(* ===== verification/Effects.v ===== *)
(** * Effects: the runtime [src/app.py] runs in

    The world a run of the Streamlit script acts on: the exceptions Python
    raises, the elements the script puts on the page, the process-wide
    configuration of the [google.generativeai] module and the requests sent
    to the Gemini service.  [M] is the monad of the Prelude on this world;
    the Streamlit calls of the script ([st.title], [st.error], [st.spinner],
    [st.stop], ...) are its primitive operations. *)

From Stdlib Require Import String List Bool.
From S2P Require Import Prelude.
Import ListNotations.

Local Open Scope string_scope.
Local Open Scope ste_scope.

(** ** Python exceptions *)

(** [Exc msg] is an instance of a subclass of [Exception] with
    [str(e) = msg]; [StopException] is what [st.stop()] raises, a
    [ScriptControlException] that derives from [BaseException] and is
    therefore not caught by [except Exception]. *)
Inductive PyExc : Type :=
| Exc (msg : string)
| StopException.

(** The selector of [except Exception as e]: it gives [str(e)]. *)
Definition except_Exception (e : PyExc) : option string :=
  match e with
  | Exc msg => Some msg
  | StopException => None
  end.

(** ** Page elements, in the order the script emits them *)
Inductive Element : Type :=
| Title (body : string)                          (* st.title *)
| SidebarHeader (body : string)                  (* st.sidebar.header *)
| SidebarError (body : string)                   (* st.sidebar.error *)
| Selectbox (label : string) (options : list string)   (* st.sidebar.selectbox *)
| FileUploader (label : string) (type_ : string) (* st.file_uploader *)
| Button (label : string)                        (* st.button *)
| SpinnerStart (text : string)                   (* entering st.spinner(text) *)
| SpinnerEnd                                     (* leaving it: the spinner is cleared *)
| ErrorBox (body : string)                       (* st.error *)
| WarningBox (body : string)                     (* st.warning *)
| Subheader (body : string)                      (* st.subheader *)
| Markdown (body : string)                       (* st.markdown *)
| ExceptionBox (msg : string).                   (* an uncaught exception, shown by the runner *)

(** ** Requests sent to the Gemini service *)
Record Request : Type := mkRequest {
  req_api_key : option string;   (* the key the module was configured with when sending *)
  req_model : string;
  req_prompt : string
}.

(** ** The world *)
Record World : Type := mkWorld {
  genai_api_key : option string; (* google.generativeai's process-wide configuration *)
  page : list Element;           (* what this script run has written, oldest first *)
  requests : list Request        (* every request sent by the process, oldest first *)
}.

Definition M (A : Type) : Type := StE World PyExc A.

Definition with_page (w : World) (p : list Element) : World :=
  mkWorld (genai_api_key w) p (requests w).
Definition with_key (w : World) (k : option string) : World :=
  mkWorld k (page w) (requests w).
Definition with_requests (w : World) (rs : list Request) : World :=
  mkWorld (genai_api_key w) (page w) rs.

(** ** Primitive operations *)

Definition emit (el : Element) : M unit :=
  modify (fun w => with_page w (page w ++ [el])%list).

Definition st_title (s : string) : M unit := emit (Title s).
Definition st_sidebar_header (s : string) : M unit := emit (SidebarHeader s).
Definition st_sidebar_error (s : string) : M unit := emit (SidebarError s).
Definition st_error (s : string) : M unit := emit (ErrorBox s).
Definition st_warning (s : string) : M unit := emit (WarningBox s).
Definition st_subheader (s : string) : M unit := emit (Subheader s).
Definition st_markdown (s : string) : M unit := emit (Markdown s).

(** [st.stop()] ends the script run by raising [StopException]. *)
Definition st_stop {A} : M A := raise StopException.

(** [with st.spinner(text): body] *)
Definition st_spinner {A} (text : string) (body : M A) : M A :=
  emit (SpinnerStart text) ;; try_finally body (emit SpinnerEnd).

(** A library call that returns a value or raises an [Exception]. *)
Definition py_lift {A} (r : string + A) : M A :=
  match r with
  | inl msg => raise (Exc msg)
  | inr a => ret a
  end.

(** [genai.configure(api_key=key)]: a write of the module-wide key. *)
Definition genai_configure (key : string) : M unit :=
  modify (fun w => with_key w (Some key)).

(** Sending a request: it joins the process's request log. *)
Definition send_request (r : Request) : M unit :=
  modify (fun w => with_requests w (requests w ++ [r])%list).

(** ** Run equations of the primitives *)

Lemma run_emit el w : emit el w = (Ret tt, with_page w (page w ++ [el])%list).
Proof. reflexivity. Qed.

Lemma run_py_lift_inl {A} msg w : @py_lift A (inl msg) w = (Raise (Exc msg), w).
Proof. reflexivity. Qed.

Lemma run_py_lift_inr {A} (a : A) w : py_lift (inr a) w = (Ret a, w).
Proof. reflexivity. Qed.

Lemma run_spinner {A} text (body : M A) w :
  st_spinner text body w =
  let w1 := with_page w (page w ++ [SpinnerStart text])%list in
  let '(o, w2) := body w1 in
  (o, with_page w2 (page w2 ++ [SpinnerEnd])%list).
Proof. unfold st_spinner, bind, try_finally. simpl. now destruct (body _). Qed.

#[export] Hint Rewrite run_emit @run_py_lift_inl @run_py_lift_inr : run_db.
