(* ===== verification/Libraries.v ===== *)
(** * Libraries: what the script relies on from pypdf and google.generativeai

    [src/app.py] calls two third-party libraries.  Their behaviour is not
    part of the repository, so each is an interface here: a class whose
    fields are the calls the script makes, with a result that is a value
    or the message of the [Exception] the call raises.  Every theorem about
    the script is proved for all instances, that is for every behaviour of
    the libraries; the mock instances at the end are concrete libraries
    used by the witnesses, in the manner of the spec's mocked tests. *)

From Stdlib Require Import String List Bool.
From S2P Require Import Prelude Effects.
Import ListNotations.

Local Open Scope string_scope.
Local Open Scope ste_scope.

(** ** pypdf *)
Class PdfLib : Type := {
  (** a page object of [PdfReader(...).pages] *)
  PdfPage : Type;
  (** [pypdf.PdfReader(stream).pages] on the bytes of the stream: the list
      of pages, or the message of the exception raised while parsing *)
  pdf_pages : bytes -> string + list PdfPage;
  (** [page.extract_text()] *)
  page_extract_text : PdfPage -> string + string
}.

(** ** google.generativeai *)
Class GenAILib : Type := {
  (** a [genai.GenerativeModel] object *)
  GenModel : Type;
  (** a [GenerateContentResponse] *)
  GenResponse : Type;
  (** [genai.GenerativeModel(model_name)] *)
  generative_model : string -> string + GenModel;
  (** the model name the object was created for *)
  model_name_of : GenModel -> string;
  (** the service's answer to a request made with a configured key (or
      none), a model name and a prompt; an error is the message of the
      exception [generate_content] raises *)
  service_reply : option string -> string -> string -> string + GenResponse;
  (** [response.text], which raises when the reply has no text part *)
  response_text : GenResponse -> string + string
}.

(** [model.generate_content(prompt)]: the request is authenticated with
    the key the module holds at the time of the call (the process-wide
    configuration set by [genai.configure]); it is sent, then the reply is
    returned or its error raised. *)
Definition generate_content `{GenAILib} (model : GenModel) (prompt : string)
    : M GenResponse :=
  key <- gets genai_api_key ;;
  send_request (mkRequest key (model_name_of model) prompt) ;;
  py_lift (service_reply key (model_name_of model) prompt).

Lemma run_generate_content `{GenAILib} model prompt w :
  generate_content model prompt w =
  (match service_reply (genai_api_key w) (model_name_of model) prompt with
   | inl msg => Raise (Exc msg)
   | inr r => Ret r
   end,
   with_requests w (requests w ++
     [mkRequest (genai_api_key w) (model_name_of model) prompt])%list).
Proof.
  unfold generate_content, bind, gets, send_request, modify.
  now destruct (service_reply _ _ _).
Qed.

#[export] Hint Rewrite @run_generate_content : run_db.

(** ** Mock libraries *)

(** A pypdf whose pages are given by their extraction results: [doc b]
    is the parse of the bytes [b]. *)
Definition mock_pdf (doc : bytes -> string + list (string + string)) : PdfLib := {|
  PdfPage := string + string;
  pdf_pages := doc;
  page_extract_text := fun p => p
|}.

(** A google.generativeai whose models are the names themselves and
    whose replies are their text; [known] is the list of model names the
    constructor accepts. *)
Definition mock_genai (known : list string)
    (reply : option string -> string -> string -> string + string) : GenAILib := {|
  GenModel := string;
  GenResponse := string;
  generative_model := fun n =>
    if existsb (String.eqb n) known then inr n else inl ("unknown model " ++ n);
  model_name_of := fun n => n;
  service_reply := reply;
  response_text := fun r => inr r
|}.
