(* ===== verification/Extractor.v ===== *)
(** * Extractor: [extract_text_from_pdf] (src/app.py, lines 7-17)

    The PDF is opened with pypdf, the text of every page is appended in
    page order to an accumulator that starts empty, and the text is
    returned; any [Exception] raised on the way is caught, reported with
    [st.error] and turned into [None].  The loop is compared with a
    reference definition ([pdf_text]: the texts of all pages, joined with
    no separator), and the whole function is characterised on every
    branch. *)

From Stdlib Require Import String List Bool.
From S2P Require Import Prelude Effects Libraries.
Import ListNotations.

Local Open Scope string_scope.
Local Open Scope ste_scope.

Module Extractor.
Section Extractor.
Context `{PdfLib}.

(** [for page in pdf_reader.pages: text += page.extract_text()] *)
Fixpoint extract_pages_loop (pages : list PdfPage) (text : string) : M string :=
  match pages with
  | [] => ret text
  | page :: rest =>
      t <- py_lift (page_extract_text page) ;;
      extract_pages_loop rest (text ++ t)
  end.

Definition extract_error_prefix : string :=
  "PDFの読み込み中にエラーが発生しました: ".

Definition extract_text_from_pdf (pdf_file : bytes) : M (option string) :=
  try_except except_Exception
    (pages <- py_lift (pdf_pages pdf_file) ;;
     text <- extract_pages_loop pages "" ;;
     ret (Some text))
    (fun e => st_error (extract_error_prefix ++ e) ;; ret None).

(** ** Reference definition *)

(** The texts of the pages in order, or the first extraction error. *)
Fixpoint pages_texts (pages : list PdfPage) : string + list string :=
  match pages with
  | [] => inr []
  | page :: rest =>
      match page_extract_text page, pages_texts rest with
      | inl msg, _ => inl msg
      | inr t, inl msg => inl msg
      | inr t, inr ts => inr (t :: ts)
      end
  end.

(** What the document's text is: the page texts joined with no
    separator, or the message of the first failure. *)
Definition pdf_text (pdf_file : bytes) : string + string :=
  match pdf_pages pdf_file with
  | inl msg => inl msg
  | inr pages =>
      match pages_texts pages with
      | inl msg => inl msg
      | inr ts => inr (str_concat ts)
      end
  end.

(** ** Loop lemmas *)

Lemma extract_pages_loop_ok pages acc ts :
  pages_texts pages = inr ts ->
  meq (extract_pages_loop pages acc) (ret (acc ++ str_concat ts)).
Proof.
  revert acc ts. induction pages as [|p ps IH]; intros acc ts Hts; simpl in Hts.
  - injection Hts as <-. simpl. now rewrite append_nil_r.
  - destruct (page_extract_text p) as [m|t] eqn:Hp; [discriminate|].
    destruct (pages_texts ps) as [m|ts'] eqn:Hps; [discriminate|].
    injection Hts as <-. cbn [extract_pages_loop]. rewrite Hp. cbn [py_lift].
    rewrite bind_ret_l. cbv beta. rewrite (IH (acc ++ t) ts' eq_refl).
    simpl. now rewrite append_assoc.
Qed.

Lemma extract_pages_loop_err pages acc msg :
  pages_texts pages = inl msg ->
  meq (extract_pages_loop pages acc) (raise (Exc msg)).
Proof.
  revert acc. induction pages as [|p ps IH]; intros acc Hts w; simpl in *;
    [discriminate|].
  destruct (page_extract_text p) as [m|t]; [now injection Hts as <-|].
  destruct (pages_texts ps) as [m|ts']; [|discriminate].
  simpl. exact (IH (acc ++ t) Hts w).
Qed.

(** ** Properties *)

(** C12: the accumulation loop of lines 11-13 computes, from any
    accumulator, the accumulator followed by the page texts in order;
    an extraction failure on any page raises that page's exception. *)
Theorem extract_pages_loop_correct pages acc :
  meq (extract_pages_loop pages acc)
      (match pages_texts pages with
       | inr ts => ret (fold_left append ts acc)
       | inl msg => raise (Exc msg)
       end).
Proof.
  destruct (pages_texts pages) as [msg|ts] eqn:E.
  - now apply extract_pages_loop_err.
  - rewrite fold_append_concat. now apply extract_pages_loop_ok.
Qed.

Lemma extract_text_from_pdf_eq pdf_file w :
  extract_text_from_pdf pdf_file w =
  match pdf_text pdf_file with
  | inr text => (Ret (Some text), w)
  | inl msg =>
      (Ret None, with_page w (page w ++ [ErrorBox (extract_error_prefix ++ msg)])%list)
  end.
Proof.
  unfold extract_text_from_pdf, pdf_text, try_except, bind.
  destruct (pdf_pages pdf_file) as [msg|pages]; [reflexivity|]. cbn [py_lift ret].
  destruct (pages_texts pages) as [msg|ts] eqn:E.
  - now rewrite (extract_pages_loop_err pages "" msg E w).
  - now rewrite (extract_pages_loop_ok pages "" ts E w).
Qed.

(** C1: [extract_text_from_pdf] never lets an exception escape and
    touches nothing but the page: on a readable document it returns the
    page texts joined with no separator and leaves the world as it was;
    on any failure it shows exactly one [st.error] with the exception's
    message and returns [None]. *)
Theorem extract_text_from_pdf_spec pdf_file w :
  extract_text_from_pdf pdf_file w =
  match pdf_text pdf_file with
  | inr text => (Ret (Some text), w)
  | inl msg =>
      (Ret None, with_page w (page w ++ [ErrorBox (extract_error_prefix ++ msg)])%list)
  end.
Proof. apply extract_text_from_pdf_eq. Qed.

Lemma pages_texts_first_failure before p after msg :
  (forall q, In q before -> exists t, page_extract_text q = inr t) ->
  page_extract_text p = inl msg ->
  pages_texts (before ++ p :: after)%list = inl msg.
Proof.
  intros Hok Hp. induction before as [|q qs IH]; simpl; [now rewrite Hp|].
  destruct (Hok q (or_introl eq_refl)) as (t & ->).
  now rewrite IH by (intros q' Hq'; apply Hok; now right).
Qed.

(** C13: no partial recovery: when a page fails to extract and every
    page before it extracts, the texts of those pages are dropped, the
    result is [None] and the one error shown is that page's, whatever the
    pages after it hold. *)
Theorem extract_page_failure_discards pdf_file before p after msg w :
  pdf_pages pdf_file = inr (before ++ p :: after)%list ->
  (forall q, In q before -> exists t, page_extract_text q = inr t) ->
  page_extract_text p = inl msg ->
  extract_text_from_pdf pdf_file w =
  (Ret None, with_page w (page w ++ [ErrorBox (extract_error_prefix ++ msg)])%list).
Proof.
  intros Hpages Hok Hp. rewrite extract_text_from_pdf_eq. unfold pdf_text.
  now rewrite Hpages, (pages_texts_first_failure before p after msg Hok Hp).
Qed.
End Extractor.

(** ** Witnesses *)

Definition empty_world : World := mkWorld None [] [].

(** The spec's scenario: a two-page document whose pages extract to
  ["Hello "] and ["World"]. *)
Definition hello_pdf : PdfLib := mock_pdf (fun _ => inr [inr "Hello "; inr "World"]).

Example extract_hello_world :
@extract_text_from_pdf hello_pdf [] empty_world = (Ret (Some "Hello World"), empty_world).
Proof. reflexivity. Qed.

(** A three-page document whose middle page cannot be read. *)
Definition broken_page_pdf : PdfLib :=
mock_pdf (fun _ => inr [inr "Hello "; inl "bad content stream"; inr "World"]).

Lemma extract_page_failure_discards_witness :
@extract_text_from_pdf broken_page_pdf [] empty_world =
(Ret None, with_page empty_world [ErrorBox (extract_error_prefix ++ "bad content stream")]).
Proof.
apply (@extract_page_failure_discards broken_page_pdf [] [inr "Hello "]
         (inl "bad content stream") [inr "World"] "bad content stream" empty_world).
- reflexivity.
- intros q [<-|[]]. exists "Hello ". reflexivity.
- reflexivity.
Defined.
End Extractor.
