(* ===== verification/Prompt.v ===== *)
(** * Prompt: the prompt template of [summarize_text] (src/app.py, lines 25-66)

    The f-string of lines 25-66 is a fixed text with the document text
    substituted at [{text}].  It is modelled line by line: [prompt_lines]
    are lines 26-64 as they stand in the source (with their indentation),
    and [build_prompt] puts them between the newline that follows the
    opening quotes and the [{text}] line.  Strings are byte strings: the
    Japanese text of the template is in UTF-8, the encoding in which the
    prompt is sent.  The theorems show that the document text is embedded
    verbatim and can be read back from the prompt, and that the seven
    [###] section headings precede it in order. *)

From Stdlib Require Import String Ascii List Bool Lia.
From S2P Require Import Prelude.
Import ListNotations.

Local Open Scope string_scope.

Module Prompt.

Definition nl : string := String (ascii_of_nat 10) "".

(** The eight spaces of indentation of lines 26-66. *)
Definition indent : string := "        ".

(** Lines 26-64 of the template. *)
Definition prompt_lines : list string := [
  "        以下の英語の学術論文を読み、指定された項目に従って情報を抽出・要約してください。";
  "";
  "        【指示】";
  "        1.  まず、論文の本文から「タイトル」と「著者」を正確に抽出してください。";
  "        2.  次に、以下の項目について日本語で要約してください。";
  "            - 「背景・目的」";
  "            - 「方法」";
  "            - 「結果・考察」";
  "            - 「主張の限界・残された課題」";
  "        3.  「参考文献」は原文のまま抽出し、各文献を改行で区切ってリスト形式にしてください。";
  "        4.  出力は全体としてマークダウン形式で、各セクションのタイトル（「タイトル」「著者」「背景・目的」など）のみを `###` を使って記述し、本文は平文で出力してください（太字などの装飾は不要です）。";
  "";
  "        【出力フォーマット】";
  "        ### タイトル";
  "        ここに抽出したタイトルを記述";
  "";
  "        ### 著者";
  "        ここに抽出した著者リストを記述";
  "";
  "        ### 背景・目的";
  "        ここに内容を記述";
  "";
  "        ### 方法";
  "        ここに内容を記述";
  "";
  "        ### 結果・考察";
  "        ここに内容を記述";
  "";
  "        ### 主張の限界・残された課題";
  "        ここに内容を記述";
  "";
  "        ### 参考文献";
  "        - 文献1";
  "        - 文献2";
  "        - ...";
  "";
  "        ---";
  "";
  "        【論文本文】"
].

(** Everything before [{text}]: the newline that opens the f-string, lines 26-64
    each ending in a newline, and the indentation of line 65. *)
Definition prompt_head : string :=
  nl ++ str_concat (map (fun l => l ++ nl) prompt_lines) ++ indent.

(** Everything after [{text}]: the end of line 65 and the indentation
    before the closing quotes on line 66. *)
Definition prompt_tail : string := nl ++ indent.

(** The f-string of lines 25-66 with [text] substituted for [{text}]. *)
Definition build_prompt (text : string) : string :=
  prompt_head ++ text ++ prompt_tail.

(** The seven section titles of the output format, in order. *)
Definition section_titles : list string :=
  ["タイトル"; "著者"; "背景・目的"; "方法"; "結果・考察";
   "主張の限界・残された課題"; "参考文献"].

Definition section_headings : list string :=
  map (fun t => "### " ++ t) section_titles.

(** Reading the document back from a prompt. *)
Definition prompt_document (prompt : string) : option string :=
  match strip_prefix prompt_head prompt with
  | Some rest => strip_suffix prompt_tail rest
  | None => None
  end.

Lemma prompt_head_headings : in_order section_headings prompt_head.
Proof. apply occurs_in_order_sound. vm_compute. reflexivity. Qed.

(** C10: the prompt holds the document text verbatim, and the text can
    be read back from it: no truncation, escaping or rewriting. *)
Theorem prompt_document_build_prompt (text : string) :
  prompt_document (build_prompt text) = Some text.
Proof.
  unfold prompt_document, build_prompt. now autorewrite with run_db.
Qed.

(** C11: the prompt asks for the seven [###] sections in the order of
    the output format (title, authors, background, method, results,
    limitations, references), and the document text comes after all of
    them. *)
Theorem build_prompt_layout (text : string) :
  in_order (section_headings ++ [text]) (build_prompt text).
Proof.
  unfold build_prompt. eauto using prompt_head_headings with app_db.
Qed.

Lemma prompt_head_length : String.length prompt_head = 1509.
Proof. vm_compute. reflexivity. Qed.

Lemma prompt_tail_length : String.length prompt_tail = 9.
Proof. reflexivity. Qed.

(** C21: the prompt is the document plus a fixed overhead of 1518
    bytes (the template in UTF-8): the request grows with the document and
    nothing bounds it, so an over-long paper is sent whole and the limit is
    whatever the service enforces. *)
Theorem build_prompt_length (text : string) :
  String.length (build_prompt text) = String.length text + 1518.
Proof.
  unfold build_prompt. autorewrite with run_db.
  rewrite prompt_head_length, prompt_tail_length. lia.
Qed.

End Prompt.
