(* ===== verification/Summarizer.v ===== *)
(** * Summarizer: [summarize_text] (src/app.py, lines 19-72)

    [summarize_text api_key model_name text] configures the
    google.generativeai module with the key (a write of process-wide
    state), creates the model object, builds the prompt of [Prompt], sends
    one request and returns the reply's text unchanged; any [Exception] on
    the way is reported with [st.error] and turned into [None].  The
    theorems characterise the function on every branch, count the requests
    it sends and what they carry, and record that the key it configures
    stays in the module after it returns. *)

From Stdlib Require Import String List Bool.
From S2P Require Import Prelude Effects Libraries Prompt.
Import ListNotations.

Local Open Scope string_scope.
Local Open Scope ste_scope.

Module Summarizer.
Section Summarizer.
Context `{GenAILib}.

Definition api_error_prefix : string :=
  "Gemini APIとの通信中にエラーが発生しました: ".

Definition summarize_text (api_key model_name text : string) : M (option string) :=
  try_except except_Exception
    (genai_configure api_key ;;
     model <- py_lift (generative_model model_name) ;;
     let prompt := Prompt.build_prompt text in
     response <- generate_content model prompt ;;
     t <- py_lift (response_text response) ;;
     ret (Some t))
    (fun e => st_error (api_error_prefix ++ e) ;; ret None).

(** ** Reference definitions *)

(** The text of the service's reply to a request, or the message of
    the exception raised by [generate_content] or by [response.text]. *)
Definition reply_text (key : option string) (model prompt : string) : string + string :=
  match service_reply key model prompt with
  | inl msg => inl msg
  | inr r => response_text r
  end.

(** The request [summarize_text] sends, if the model object is created. *)
Definition summary_request (api_key : string) (model : GenModel) (text : string) : Request :=
  mkRequest (Some api_key) (model_name_of model) (Prompt.build_prompt text).

(** The world after [st.error(prefix + msg)]. *)
Definition with_error (w : World) (msg : string) : World :=
  with_page w (page w ++ [ErrorBox (api_error_prefix ++ msg)])%list.

(** ** Properties *)

Lemma summarize_text_eq api_key model_name text w :
  summarize_text api_key model_name text w =
  let w1 := with_key w (Some api_key) in
  match generative_model model_name with
  | inl msg => (Ret None, with_error w1 msg)
  | inr model =>
      let w2 := with_requests w1
                  (requests w1 ++ [summary_request api_key model text])%list in
      match reply_text (Some api_key) (model_name_of model) (Prompt.build_prompt text) with
      | inl msg => (Ret None, with_error w2 msg)
      | inr t => (Ret (Some t), w2)
      end
  end.
Proof.
  unfold summarize_text, try_except, bind at 1. cbn [genai_configure modify].
  destruct (generative_model model_name) as [msg|model]; [reflexivity|].
  unfold bind; cbv beta; cbn [py_lift ret]. rewrite run_generate_content. unfold reply_text.
  destruct (service_reply _ _ _) as [msg|r]; [reflexivity|].
  now destruct (response_text r).
Qed.

(** C2: [summarize_text] on every branch.  The key is configured first
    in every case.  If the model object cannot be created, no request is
    sent and one error is shown.  Otherwise exactly one request is sent,
    authenticated with [api_key] and carrying the prompt built from
    [text]; the reply's text is returned unchanged, or, if the call or
    [response.text] raises, one error is shown and [None] returned.  No
    exception escapes. *)
Theorem summarize_text_spec api_key model_name text w :
  summarize_text api_key model_name text w =
  let w1 := with_key w (Some api_key) in
  match generative_model model_name with
  | inl msg => (Ret None, with_error w1 msg)
  | inr model =>
      let w2 := with_requests w1
                  (requests w1 ++ [summary_request api_key model text])%list in
      match reply_text (Some api_key) (model_name_of model) (Prompt.build_prompt text) with
      | inl msg => (Ret None, with_error w2 msg)
      | inr t => (Ret (Some t), w2)
      end
  end.
Proof. apply summarize_text_eq. Qed.

(** C14: the effects of [summarize_text] outside the page: the module
    is left configured with [api_key] (process-wide, whatever it held
    before), and the request log grows by exactly the one request to the
    created model, or by nothing when the model cannot be created. *)
Theorem summarize_text_effects api_key model_name text w :
  let w' := snd (summarize_text api_key model_name text w) in
  genai_api_key w' = Some api_key /\
  requests w' = (requests w ++
    match generative_model model_name with
    | inl _ => []
    | inr model => [summary_request api_key model text]
    end)%list.
Proof.
  rewrite summarize_text_eq. cbn zeta.
  destruct (generative_model model_name) as [msg|model]; simpl;
    [now rewrite app_nil_r|].
  now destruct (reply_text _ _ _).
Qed.
End Summarizer.
End Summarizer.
