(* ===== verification/App.v ===== *)
(** * App: the Streamlit script (src/app.py, lines 74-113)

    Streamlit runs the whole script from the top on every interaction.
    [app_script] is one run: it draws the title and the sidebar, stops the
    run with [st.stop()] when the secret store has no API key, draws the
    model selectbox, the uploader and the button, and, on the run that a
    click triggers, runs the pipeline: [extract_text_from_pdf] under a
    spinner, then, when the text is not empty, [summarize_text] under a
    second spinner, then the summary under a subheader when it is not
    empty.  [run_script] is Streamlit's runner around one run: a fresh
    page, [StopException] swallowed, any other uncaught exception shown.
    [rerun] and [reachable] are the process's life: a sequence of runs of
    the script on one deployment secret, sharing the genai module's
    configuration and the request log. *)

From Stdlib Require Import String List Bool Lia.
From S2P Require Import Prelude Effects Libraries Extractor Prompt Summarizer.
Import ListNotations.

Local Open Scope string_scope.
Local Open Scope ste_scope.

#[local] Arguments String.append : simpl never.

Module App.

(** The three choices of the selectbox (lines 87-90), in its order. *)
Inductive ModelChoice : Type :=
| Gemini25Pro
| Gemini25Flash
| Gemini20Flash.

Definition model_id (m : ModelChoice) : string :=
  match m with
  | Gemini25Pro => "gemini-2.5-pro"
  | Gemini25Flash => "gemini-2.5-flash"
  | Gemini20Flash => "gemini-2.0-flash"
  end.

Definition model_options : list string :=
  ["gemini-2.5-pro"; "gemini-2.5-flash"; "gemini-2.0-flash"].

(** What a run of the script reads from its session: the deployment
    secret, the widgets' current values, and whether the run is the one
    a click of the button triggered. *)
Record Session : Type := mkSession {
  secret_api_key : option string;  (* st.secrets.get("GEMINI_API_KEY") *)
  selected_model : ModelChoice;    (* the selectbox's value *)
  uploaded : option bytes;         (* the uploader's value: None or the file's bytes *)
  clicked : bool                   (* st.button's value *)
}.

(** ** Texts of the page *)
Definition app_title := "英語論文要約アプリ".
Definition sidebar_title := "設定".
Definition admin_message :=
  "アプリをデプロイする管理者に連絡して、Gemini APIキーを設定してもらってください。".
Definition model_label := "使用するモデルを選択".
Definition uploader_label := "英語の論文(PDF)をアップロードしてください".
Definition button_label := "要約を実行".
Definition reading_spinner := "論文を読み込んでいます...".
Definition summarizing_suffix := " が論文を要約しています...".
Definition result_heading := "要約結果".
Definition key_warning := "サイドバーでGemini APIキーを入力してください。".
Definition upload_warning := "論文のPDFファイルをアップロードしてください。".

(** ** Widgets: each draws itself and returns its current value *)
Definition st_selectbox (label : string) (options : list string) (value : string)
    : M string :=
  emit (Selectbox label options) ;; ret value.

Definition st_file_uploader (label type_ : string) (value : option bytes)
    : M (option bytes) :=
  emit (FileUploader label type_) ;; ret value.

Definition st_button (label : string) (value : bool) : M bool :=
  emit (Button label) ;; ret value.

Section Script.
Context `{PdfLib} `{GenAILib}.

(** Lines 98-108: the pipeline, once key and file are known present. *)
Definition run_pipeline (api_key model_name : string) (file : bytes) : M unit :=
  paper_text <- st_spinner reading_spinner
                  (Extractor.extract_text_from_pdf file) ;;
  match paper_text with
  | Some text =>
      if str_truthy text then
        summary <- st_spinner (model_name ++ summarizing_suffix)
                     (Summarizer.summarize_text api_key model_name text) ;;
        match summary with
        | Some sm =>
            if str_truthy sm then st_subheader result_heading ;; st_markdown sm
            else ret tt
        | None => ret tt
        end
      else ret tt
  | None => ret tt
  end.

(** Lines 110-113. *)
Definition missing_input_warning (api_key : option string) : M unit :=
  if negb (opt_str_truthy api_key) then st_warning key_warning
  else st_warning upload_warning.

(** Lines 76-113: one run of the script. *)
Definition app_script (s : Session) : M unit :=
  st_title app_title ;;
  st_sidebar_header sidebar_title ;;
  let api_key := secret_api_key s in
  (if negb (opt_str_truthy api_key)
   then st_sidebar_error admin_message ;; st_stop
   else ret tt) ;;
  model_name <- st_selectbox model_label model_options (model_id (selected_model s)) ;;
  uploaded_file <- st_file_uploader uploader_label "pdf" (uploaded s) ;;
  clicked <- st_button button_label (clicked s) ;;
  if clicked then
    match api_key, uploaded_file with
    | Some key, Some file =>
        if str_truthy key then run_pipeline key model_name file
        else missing_input_warning api_key
    | _, _ => missing_input_warning api_key
    end
  else ret tt.

(** Streamlit's runner: a run starts on a blank page; [st.stop()]
    ends it quietly, any other uncaught exception is shown. *)
Definition run_script (s : Session) (w : World) : World :=
  match app_script s (with_page w []) with
  | (Ret _, w') => w'
  | (Raise StopException, w') => w'
  | (Raise (Exc msg), w') => with_page w' (page w' ++ [ExceptionBox msg])%list
  end.

(** ** The process: reruns on one deployment *)

Definition initial_world : World := mkWorld None [] [].

(** One rerun, triggered by any interaction, on the deployment
    secret [secret]. *)
Inductive rerun (secret : option string) : World -> World -> Prop :=
| rerun_run w s :
    secret_api_key s = secret -> rerun secret w (run_script s w).

Inductive reachable (secret : option string) : World -> Prop :=
| reachable_init : reachable secret initial_world
| reachable_step w w' :
    reachable secret w -> rerun secret w w' -> reachable secret w'.

(** ** Reference behaviour of the pipeline *)

(** What [run_pipeline] adds to the world: the key it leaves in the
    genai module (when [summarize_text] runs), the elements it draws
    and the requests it sends, from the document's text ([pdf_text])
    and the libraries' answers. *)
Definition pipeline_effect (api_key model_name : string) (file : bytes)
    : option string * list Element * list Request :=
  let read := [SpinnerStart reading_spinner; SpinnerEnd] in
  match Extractor.pdf_text file with
  | inl msg =>
      (None, [SpinnerStart reading_spinner;
              ErrorBox (Extractor.extract_error_prefix ++ msg); SpinnerEnd], [])
  | inr text =>
      if str_truthy text then
        let sp := SpinnerStart (model_name ++ summarizing_suffix) in
        match generative_model model_name with
        | inl msg =>
            (Some api_key,
             read ++ [sp; ErrorBox (Summarizer.api_error_prefix ++ msg); SpinnerEnd], [])
        | inr model =>
            let req := [Summarizer.summary_request api_key model text] in
            match Summarizer.reply_text (Some api_key) (model_name_of model)
                    (Prompt.build_prompt text) with
            | inl msg =>
                (Some api_key,
                 read ++ [sp; ErrorBox (Summarizer.api_error_prefix ++ msg); SpinnerEnd],
                 req)
            | inr sm =>
                (Some api_key,
                 read ++ [sp; SpinnerEnd] ++
                   (if str_truthy sm then [Subheader result_heading; Markdown sm] else []),
                 req)
            end
        end
      else (None, read, [])
  end%list.

(** The world [w] after an effect. *)
Definition apply_effect (w : World) (eff : option string * list Element * list Request)
    : World :=
  let '(key, els, reqs) := eff in
  mkWorld (match key with Some k => Some k | None => genai_api_key w end)
          (page w ++ els) (requests w ++ reqs).

Lemma run_pipeline_spec api_key model_name file w :
  run_pipeline api_key model_name file w =
  (Ret tt, apply_effect w (pipeline_effect api_key model_name file)).
Proof.
  unfold run_pipeline, pipeline_effect, bind at 1.
  rewrite run_spinner; cbv zeta. rewrite Extractor.extract_text_from_pdf_eq.
  destruct w as [k p rs]; unfold with_page, ret; simpl.
  destruct (Extractor.pdf_text file) as [msg|text]; simpl; [list_eq|].
  destruct (str_truthy text); simpl; [|list_eq].
  unfold bind at 1. rewrite run_spinner; cbv zeta.
  rewrite Summarizer.summarize_text_eq. unfold Summarizer.with_error, with_page; simpl.
  destruct (generative_model model_name) as [msg|model]; simpl; [list_eq|].
  destruct (Summarizer.reply_text _ _ _) as [msg|sm]; simpl; [list_eq|].
  destruct (str_truthy sm); unfold st_subheader, st_markdown, emit, modify, bind, with_page;
    simpl; list_eq.
Qed.

(** ** Reference behaviour of one run *)

Definition blocked_page : list Element :=
  [Title app_title; SidebarHeader sidebar_title; SidebarError admin_message].

Definition ready_page : list Element :=
  [Title app_title; SidebarHeader sidebar_title;
   Selectbox model_label model_options; FileUploader uploader_label "pdf";
   Button button_label].

(** What one run does to the world, by cases on the secret, the click
    and the upload. *)
Definition script_result (s : Session) (w : World) : World :=
  let blocked := mkWorld (genai_api_key w) blocked_page (requests w) in
  let ready := mkWorld (genai_api_key w) ready_page (requests w) in
  match secret_api_key s with
  | Some key =>
      if str_truthy key then
        if clicked s then
          match uploaded s with
          | Some file =>
              apply_effect ready (pipeline_effect key (model_id (selected_model s)) file)
          | None => with_page ready (ready_page ++ [WarningBox upload_warning])
          end
        else ready
      else blocked
  | None => blocked
  end.

Lemma run_app_script_blocked s w :
  opt_str_truthy (secret_api_key s) = false ->
  app_script s (with_page w []) =
  (Raise StopException, mkWorld (genai_api_key w) blocked_page (requests w)).
Proof.
  intros Hk. unfold app_script. cbv zeta. rewrite Hk. reflexivity.
Qed.

Lemma run_script_spec s w : run_script s w = script_result s w.
Proof.
  unfold script_result. destruct (secret_api_key s) as [key|] eqn:Hs.
  2: { unfold run_script. rewrite run_app_script_blocked by now rewrite Hs. reflexivity. }
  destruct (str_truthy key) eqn:Hk.
  2: { unfold run_script. rewrite run_app_script_blocked by (rewrite Hs; exact Hk).
       reflexivity. }
  unfold run_script, app_script. cbv zeta. rewrite Hs. simpl opt_str_truthy. rewrite Hk.
  unfold st_title, st_sidebar_header, st_selectbox, st_file_uploader, st_button,
    emit, modify, bind, ret, with_page; simpl.
  destruct (clicked s); [|reflexivity].
  destruct (uploaded s) as [file|];
    [|unfold missing_input_warning, st_warning, emit, modify; simpl; now rewrite Hk].
  rewrite run_pipeline_spec. reflexivity.
Qed.

(** ** Lemmas on the reference behaviour *)

(** Refute membership in a concrete list of elements. *)
Ltac not_in_list :=
  let H := fresh "Hin" in
  intros H; simpl in H;
  repeat (destruct H as [H|H];
          [first [ discriminate H
                 | injection H; unfold upload_warning, key_warning; discriminate ] |]);
  exact H.

Lemma script_result_blocked s w :
  opt_str_truthy (secret_api_key s) = false ->
  script_result s w = mkWorld (genai_api_key w) blocked_page (requests w).
Proof.
  unfold script_result. destruct (secret_api_key s) as [key|]; simpl; [|reflexivity].
  now intros ->.
Qed.

Lemma script_result_ready s w key :
  secret_api_key s = Some key -> str_truthy key = true ->
  script_result s w =
  let ready := mkWorld (genai_api_key w) ready_page (requests w) in
  if clicked s then
    match uploaded s with
    | Some file =>
        apply_effect ready (pipeline_effect key (model_id (selected_model s)) file)
    | None => with_page ready (ready_page ++ [WarningBox upload_warning])
    end
  else ready.
Proof. unfold script_result. now intros -> ->. Qed.

(** Case analysis on everything [pipeline_effect] depends on. *)
Ltac pipeline_cases :=
  unfold pipeline_effect;
  destruct (Extractor.pdf_text _) as [?msg|?text];
  [| destruct (str_truthy _) eqn:?Htext;
     [ destruct (generative_model _) as [?msg|?model];
       [| destruct (Summarizer.reply_text _ _ _) as [?msg|?sm];
          [| ]]
     | ]];
  repeat match goal with
  | |- context [str_truthy ?x] => destruct (str_truthy x)
  end.

Lemma pipeline_effect_key api_key model_name file :
  let '(k, _, reqs) := pipeline_effect api_key model_name file in
  (k = None \/ k = Some api_key) /\
  Forall (fun r => req_api_key r = Some api_key) reqs.
Proof. pipeline_cases; simpl; (split; [auto | repeat constructor]). Qed.

(** The elements the pipeline can draw, for the model name [model_name]. *)
Definition pipeline_element (model_name : string) (el : Element) : Prop :=
  match el with
  | SpinnerStart t => t = reading_spinner \/ t = model_name ++ summarizing_suffix
  | SpinnerEnd | ErrorBox _ | Subheader _ | Markdown _ => True
  | _ => False
  end.

(** What the pipeline draws: only spinners named after the reading step or
    the model, errors, the heading and the summary. *)
Lemma pipeline_effect_elements api_key model_name file :
  let '(_, els, _) := pipeline_effect api_key model_name file in
  Forall (pipeline_element model_name) els.
Proof.
  pipeline_cases; simpl; repeat (apply Forall_cons; [simpl; auto|]); apply Forall_nil.
Qed.

Lemma apply_effect_requests w eff :
  requests (apply_effect w eff) = (requests w ++ snd eff)%list.
Proof. now destruct eff as [[k els] reqs]. Qed.

Lemma pipeline_effect_requests api_key model_name file :
  snd (pipeline_effect api_key model_name file) = [] \/
  exists text model,
    Extractor.pdf_text file = inr text /\ str_truthy text = true /\
    generative_model model_name = inr model /\
    snd (pipeline_effect api_key model_name file) =
      [Summarizer.summary_request api_key model text].
Proof.
  unfold pipeline_effect.
  destruct (Extractor.pdf_text file) as [msg|text] eqn:Hpdf; [now left|].
  destruct (str_truthy text) eqn:Ht; [|now left].
  destruct (generative_model model_name) as [msg|model] eqn:Hm; [now left|].
  right. exists text, model. repeat split; auto.
  destruct (Summarizer.reply_text _ _ _); reflexivity.
Qed.

Lemma run_script_pipeline s w key file :
  secret_api_key s = Some key -> str_truthy key = true ->
  clicked s = true -> uploaded s = Some file ->
  run_script s w =
  apply_effect (mkWorld (genai_api_key w) ready_page (requests w))
               (pipeline_effect key (model_id (selected_model s)) file).
Proof.
  intros Hs Hk Hc Hu. rewrite run_script_spec, (script_result_ready s w key Hs Hk).
  cbv zeta. now rewrite Hc, Hu.
Qed.

(** ** Properties of the script *)

(** C3: a run of the script, on every branch.  Without a usable key
    (absent or empty) the page is the title, the sidebar header and the
    administrator message, and nothing else happens.  With one, the page
    shows the widgets; a run not triggered by a click stops there; a
    click without a file adds the upload warning; a click with a file
    runs the pipeline, whose effect is [pipeline_effect]. *)
Theorem run_script_correct s w : run_script s w = script_result s w.
Proof. apply run_script_spec. Qed.

(** C5: a deployment without a usable key (absent or empty) is
    blocked for the life of the process: whatever sessions, uploads
    and clicks come, no request is ever sent, the genai module is never
    configured, and every page shows only the title, the sidebar header
    and the administrator message. *)
Theorem blocked_deployment_inert secret w :
  opt_str_truthy secret = false -> reachable secret w ->
  requests w = [] /\ genai_api_key w = None /\
  (w = initial_world \/ page w = blocked_page).
Proof.
  intros Hs Hr. induction Hr as [|w w' Hr IH Hstep]; [auto|].
  destruct Hstep as [w s0 Hs0]. subst secret.
  rewrite run_script_spec, script_result_blocked by exact Hs.
  destruct IH as (-> & -> & _). simpl. auto.
Qed.

(** C6: on any deployment, every request the process ever sends is
    authenticated with the deployment's key, and the genai module holds
    either nothing or that key: a run never uses another key. *)
Theorem requests_use_deployment_key secret w :
  reachable secret w ->
  Forall (fun r => req_api_key r = secret) (requests w) /\
  (genai_api_key w = None \/ genai_api_key w = secret).
Proof.
  intros Hr. induction Hr as [|w w' Hr IH Hstep]; [simpl; auto|].
  destruct Hstep as [w s0 Hs0]. subst secret. destruct IH as [Hreq Hkey].
  rewrite run_script_spec. unfold script_result.
  destruct (secret_api_key s0) as [key|] eqn:Hk; [|simpl; auto].
  destruct (str_truthy key), (clicked s0), (uploaded s0) as [file|];
    simpl; auto.
  pose proof (pipeline_effect_key key (model_id (selected_model s0)) file) as Hp.
  destruct (pipeline_effect _ _ _) as [[k els] reqs].
  destruct Hp as [Hk' Hreqs]. simpl.
  split; [apply Forall_app; auto|].
  destruct Hk' as [->| ->]; auto.
Qed.

(** C4: one run sends at most one request, and only on the run a
    click triggers, with a usable key and an uploaded file whose text is
    not empty; that request carries the key, the chosen model and the
    prompt built from the file's text. *)
Theorem run_script_requests s w :
  exists new,
    requests (run_script s w) = (requests w ++ new)%list /\
    (new = [] \/
     exists key file text model,
       secret_api_key s = Some key /\ str_truthy key = true /\
       clicked s = true /\ uploaded s = Some file /\
       Extractor.pdf_text file = inr text /\ str_truthy text = true /\
       generative_model (model_id (selected_model s)) = inr model /\
       new = [Summarizer.summary_request key model text]).
Proof.
  rewrite run_script_spec. unfold script_result.
  destruct (secret_api_key s) as [key|] eqn:Hs;
    [|exists []; split; [symmetry; apply app_nil_r | now left]].
  destruct (str_truthy key) eqn:Hk, (clicked s) eqn:Hc, (uploaded s) as [file|] eqn:Hu;
    try (exists []; split; [symmetry; apply app_nil_r | now left]).
  rewrite apply_effect_requests. eexists; split; [reflexivity|].
  destruct (pipeline_effect_requests key (model_id (selected_model s)) file)
    as [-> | (text & model & ? & ? & ? & ->)]; [now left|].
  right. exists key, file, text, model. auto 10.
Qed.

(** C15: the warning that asks for an API key in the sidebar (line 111)
    is never shown: a run without a usable key has already stopped at
    line 86, so the [elif not api_key] branch is dead code. *)
Theorem key_warning_unreachable s w :
  ~ In (WarningBox key_warning) (page (run_script s w)).
Proof.
  rewrite run_script_spec. unfold script_result.
  destruct (secret_api_key s) as [key|]; [|not_in_list].
  destruct (str_truthy key), (clicked s), (uploaded s) as [file|]; try not_in_list.
  pose proof (pipeline_effect_elements key (model_id (selected_model s)) file) as Hp.
  destruct (pipeline_effect _ _ _) as [[k els] reqs]. rename Hp into Hels. simpl.
  intros Hin; repeat (destruct Hin as [Hin|Hin]; [discriminate Hin|]).
  rewrite Forall_forall in Hels. exact (Hels _ Hin).
Qed.

(** C18: runs do not carry a page over: the page a run shows depends
    only on the session, not on the state left by earlier runs (the
    genai configuration and the requests already sent). *)
Theorem run_script_page_independent s w1 w2 :
  page (run_script s w1) = page (run_script s w2).
Proof.
  rewrite !run_script_spec. unfold script_result.
  destruct (secret_api_key s) as [key|]; [|reflexivity].
  destruct (str_truthy key), (clicked s), (uploaded s) as [file|]; try reflexivity.
  now destruct (pipeline_effect _ _ _) as [[k els] reqs].
Qed.

Section ReadyRun.
(** A run triggered by a click, with a usable key and a file. *)
Variables (s : Session) (w : World) (key : string) (file : bytes).
Hypothesis Hsecret : secret_api_key s = Some key.
Hypothesis Hkey : str_truthy key = true.
Hypothesis Hclick : clicked s = true.
Hypothesis Hfile : uploaded s = Some file.

(** C7: when the PDF cannot be read, the run shows exactly one
    error, with the parser's message, inside the reading spinner; no
    request is sent and the genai module is not touched. *)
Theorem extraction_failure_no_request msg :
  Extractor.pdf_text file = inl msg ->
  run_script s w =
  mkWorld (genai_api_key w)
    (ready_page ++ [SpinnerStart reading_spinner;
                    ErrorBox (Extractor.extract_error_prefix ++ msg); SpinnerEnd])
    (requests w).
Proof.
  intros Hpdf. rewrite (run_script_pipeline s w key file Hsecret Hkey Hclick Hfile).
  unfold pipeline_effect. rewrite Hpdf. simpl. now rewrite app_nil_r.
Qed.

(** C16: a PDF whose pages hold no text (a scanned paper) ends the
    run silently: the reading spinner comes and goes, and there is no
    message, no request and no summary. *)
Theorem empty_text_silent :
  Extractor.pdf_text file = inr "" ->
  run_script s w =
  mkWorld (genai_api_key w)
    (ready_page ++ [SpinnerStart reading_spinner; SpinnerEnd]) (requests w).
Proof.
  intros Hpdf. rewrite (run_script_pipeline s w key file Hsecret Hkey Hclick Hfile).
  unfold pipeline_effect. rewrite Hpdf. simpl. now rewrite app_nil_r.
Qed.

(** C8: the successful run: the text is extracted, one request is
    sent with the deployment key, the chosen model and the prompt
    built from the text, and the reply's text is shown verbatim as
    markdown under the result heading; the genai module is left
    configured with the key. *)
Theorem summary_shown text model sm :
  Extractor.pdf_text file = inr text -> str_truthy text = true ->
  generative_model (model_id (selected_model s)) = inr model ->
  Summarizer.reply_text (Some key) (model_name_of model) (Prompt.build_prompt text)
    = inr sm ->
  str_truthy sm = true ->
  run_script s w =
  mkWorld (Some key)
    (ready_page ++
     [SpinnerStart reading_spinner; SpinnerEnd;
      SpinnerStart (model_id (selected_model s) ++ summarizing_suffix); SpinnerEnd;
      Subheader result_heading; Markdown sm])
    (requests w ++ [Summarizer.summary_request key model text]).
Proof.
  intros Hpdf Ht Hm Hr Hsm.
  rewrite (run_script_pipeline s w key file Hsecret Hkey Hclick Hfile).
  unfold pipeline_effect. now rewrite Hpdf, Ht, Hm, Hr, Hsm.
Qed.

(** C17: a reply with an empty text ends the run silently: the
    request was sent, but no error, heading or summary is shown. *)
Theorem empty_summary_silent text model :
  Extractor.pdf_text file = inr text -> str_truthy text = true ->
  generative_model (model_id (selected_model s)) = inr model ->
  Summarizer.reply_text (Some key) (model_name_of model) (Prompt.build_prompt text)
    = inr "" ->
  run_script s w =
  mkWorld (Some key)
    (ready_page ++
     [SpinnerStart reading_spinner; SpinnerEnd;
      SpinnerStart (model_id (selected_model s) ++ summarizing_suffix); SpinnerEnd])
    (requests w ++ [Summarizer.summary_request key model text]).
Proof.
  intros Hpdf Ht Hm Hr.
  rewrite (run_script_pipeline s w key file Hsecret Hkey Hclick Hfile).
  unfold pipeline_effect. rewrite Hpdf, Ht, Hm, Hr. simpl. list_eq.
Qed.

(** C9: when the service call or [response.text] fails, the run
    shows exactly one error with the exception's message inside the
    summarizing spinner, after the one request was sent. *)
Theorem api_failure_one_error text model msg :
  Extractor.pdf_text file = inr text -> str_truthy text = true ->
  generative_model (model_id (selected_model s)) = inr model ->
  Summarizer.reply_text (Some key) (model_name_of model) (Prompt.build_prompt text)
    = inl msg ->
  run_script s w =
  mkWorld (Some key)
    (ready_page ++
     [SpinnerStart reading_spinner; SpinnerEnd;
      SpinnerStart (model_id (selected_model s) ++ summarizing_suffix);
      ErrorBox (Summarizer.api_error_prefix ++ msg); SpinnerEnd])
    (requests w ++ [Summarizer.summary_request key model text]).
Proof.
  intros Hpdf Ht Hm Hr.
  rewrite (run_script_pipeline s w key file Hsecret Hkey Hclick Hfile).
  unfold pipeline_effect. now rewrite Hpdf, Ht, Hm, Hr.
Qed.
End ReadyRun.
End Script.


(** ** Witnesses: the spec's scenarios on mock libraries *)

(** A pypdf for which an empty file is corrupt and any other file is
    the two-page paper whose pages read ["Hello "] and ["World"]. *)
Definition demo_pdf : PdfLib :=
  mock_pdf (fun b => match b with
                     | [] => inl "EOF marker not found"
                     | _ => inr [inr "Hello "; inr "World"]
                     end).

(** A pypdf that reads every file as a scanned page with no text. *)
Definition scanned_pdf : PdfLib := mock_pdf (fun _ => inr [inr ""]).

(** A summary holding the seven headings. *)
Definition demo_summary : string :=
  str_concat (map (fun h => h ++ Prompt.nl) Prompt.section_headings).

(** A service that answers [answer] to requests carrying a key. *)
Definition demo_genai (answer : string + string) : GenAILib :=
  mock_genai model_options (fun key _ _ =>
    match key with
    | Some _ => answer
    | None => inl "API key not valid"
    end).

Definition demo_file : bytes := [Byte.x25].

Definition demo_session (secret : option string) (file : option bytes) : Session :=
  mkSession secret Gemini25Flash file true.

Lemma blocked_deployment_inert_witness :
  let w := @run_script demo_pdf (demo_genai (inr demo_summary))
             (demo_session None (Some demo_file)) initial_world in
  requests w = [] /\ genai_api_key w = None /\
  (w = initial_world \/ page w = blocked_page).
Proof.
  apply (@blocked_deployment_inert demo_pdf (demo_genai (inr demo_summary)) None);
    [reflexivity|].
  econstructor 2; [constructor | now constructor].
Defined.

(** Two reruns on a deployment with a key: a click that summarizes the
    paper, then a rerun without a click. *)
Lemma requests_use_deployment_key_witness :
  let g := demo_genai (inr demo_summary) in
  let w1 := @run_script demo_pdf g (demo_session (Some "demo-key") (Some demo_file))
              initial_world in
  let w2 := @run_script demo_pdf g (mkSession (Some "demo-key") Gemini25Pro None false) w1 in
  Forall (fun r => req_api_key r = Some "demo-key") (requests w2) /\
  (genai_api_key w2 = None \/ genai_api_key w2 = Some "demo-key").
Proof.
  apply (@requests_use_deployment_key demo_pdf (demo_genai (inr demo_summary))).
  eapply reachable_step; cycle 1; [constructor; reflexivity|].
  eapply reachable_step; cycle 1; [constructor; reflexivity|].
  constructor.
Defined.

Lemma extraction_failure_no_request_witness :
  @run_script demo_pdf (demo_genai (inr demo_summary))
    (demo_session (Some "demo-key") (Some [])) initial_world =
  mkWorld None
    (ready_page ++ [SpinnerStart reading_spinner;
                    ErrorBox (Extractor.extract_error_prefix ++ "EOF marker not found");
                    SpinnerEnd]) [].
Proof. eapply extraction_failure_no_request; reflexivity. Defined.

Lemma empty_text_silent_witness :
  @run_script scanned_pdf (demo_genai (inr demo_summary))
    (demo_session (Some "demo-key") (Some demo_file)) initial_world =
  mkWorld None (ready_page ++ [SpinnerStart reading_spinner; SpinnerEnd]) [].
Proof. eapply empty_text_silent; reflexivity. Defined.

(** The spec's end-to-end scenario: key present, model
    gemini-2.5-flash, the Hello/World paper, a service echoing a fixed
    markdown summary with the seven headings. *)
Lemma summary_shown_witness :
  @run_script demo_pdf (demo_genai (inr demo_summary))
    (demo_session (Some "demo-key") (Some demo_file)) initial_world =
  mkWorld (Some "demo-key")
    (ready_page ++
     [SpinnerStart reading_spinner; SpinnerEnd;
      SpinnerStart ("gemini-2.5-flash" ++ summarizing_suffix); SpinnerEnd;
      Subheader result_heading; Markdown demo_summary])
    [mkRequest (Some "demo-key") "gemini-2.5-flash" (Prompt.build_prompt "Hello World")].
Proof.
  apply (@summary_shown demo_pdf (demo_genai (inr demo_summary))
           (demo_session (Some "demo-key") (Some demo_file)) initial_world "demo-key" demo_file
           eq_refl eq_refl eq_refl eq_refl "Hello World" "gemini-2.5-flash" demo_summary);
    reflexivity.
Defined.

Lemma empty_summary_silent_witness :
  @run_script demo_pdf (demo_genai (inr ""))
    (demo_session (Some "demo-key") (Some demo_file)) initial_world =
  mkWorld (Some "demo-key")
    (ready_page ++
     [SpinnerStart reading_spinner; SpinnerEnd;
      SpinnerStart ("gemini-2.5-flash" ++ summarizing_suffix); SpinnerEnd])
    [mkRequest (Some "demo-key") "gemini-2.5-flash" (Prompt.build_prompt "Hello World")].
Proof.
  apply (@empty_summary_silent demo_pdf (demo_genai (inr ""))
           (demo_session (Some "demo-key") (Some demo_file)) initial_world "demo-key" demo_file
           eq_refl eq_refl eq_refl eq_refl "Hello World" "gemini-2.5-flash");
    reflexivity.
Defined.

Lemma api_failure_one_error_witness :
  @run_script demo_pdf (demo_genai (inl "429 Resource has been exhausted"))
    (demo_session (Some "demo-key") (Some demo_file)) initial_world =
  mkWorld (Some "demo-key")
    (ready_page ++
     [SpinnerStart reading_spinner; SpinnerEnd;
      SpinnerStart ("gemini-2.5-flash" ++ summarizing_suffix);
      ErrorBox (Summarizer.api_error_prefix ++ "429 Resource has been exhausted");
      SpinnerEnd])
    [mkRequest (Some "demo-key") "gemini-2.5-flash" (Prompt.build_prompt "Hello World")].
Proof.
  apply (@api_failure_one_error demo_pdf (demo_genai (inl "429 Resource has been exhausted"))
           (demo_session (Some "demo-key") (Some demo_file)) initial_world "demo-key" demo_file
           eq_refl eq_refl eq_refl eq_refl "Hello World" "gemini-2.5-flash" "429 Resource has been exhausted");
    reflexivity.
Defined.

End App.
