(* ===== verification/Race.v ===== *)
(** * Race: concurrent calls of [summarize_text] on the shared genai key

    Streamlit serves every browser session of a deployment from one
    process, a thread per session, and [genai.configure] (line 22) writes a
    key that is global to the process; [generate_content] (line 68) reads
    it when it sends.  [summarize_text] is cut here into its three atomic
    actions (configure; create the model; send and read the reply) and a
    call in progress is a [Thread].  [run_schedule] runs any interleaving
    of such calls.  The theorems show that interleaved calls with different keys can send a
    request under the other call's key, and that calls which all use one
    key (as the script's calls do: the key is the deployment's secret)
    only ever send that key. *)

From Stdlib Require Import String List Bool Lia PeanoNat.
From S2P Require Import Prelude Effects Libraries Prompt Summarizer.
Import ListNotations.

Local Open Scope string_scope.
Local Open Scope ste_scope.

Module Race.
Section Race.
Context `{GenAILib}.

(** Where a call of [summarize_text] stands. *)
Inductive SumPc : Type :=
  | AtConfigure                      (* before line 22 *)
  | AtModel                          (* before line 23 *)
  | AtGenerate (model : GenModel)    (* before line 68 *)
  | Finished (result : option string).

Record Thread : Type := mkThread {
  th_key : string;
  th_model : string;
  th_text : string;
  th_pc : SumPc
  }.

Definition with_pc (t : Thread) (pc : SumPc) : Thread :=
  mkThread (th_key t) (th_model t) (th_text t) pc.

Definition start (api_key model_name text : string) : Thread :=
  mkThread api_key model_name text AtConfigure.

(** The handler of lines 70-72, ending the call. *)
Definition fail_call (t : Thread) (e : string) : M Thread :=
  st_error (Summarizer.api_error_prefix ++ e) ;; ret (with_pc t (Finished None)).

(** One atomic action of a call. *)
Definition sum_step (t : Thread) : M Thread :=
  match th_pc t with
  | AtConfigure =>
      genai_configure (th_key t) ;; ret (with_pc t AtModel)
  | AtModel =>
      try_except except_Exception
        (model <- py_lift (generative_model (th_model t)) ;;
         ret (with_pc t (AtGenerate model)))
        (fail_call t)
  | AtGenerate model =>
      try_except except_Exception
        (response <- generate_content model (Prompt.build_prompt (th_text t)) ;;
         txt <- py_lift (response_text response) ;;
         ret (with_pc t (Finished (Some txt))))
        (fail_call t)
  | Finished _ => ret t
  end.

(** Run the calls [ts] by the schedule [sched]: each entry names the
    call that takes the next atomic action; an index out of range is a
    no-op. *)
Fixpoint run_schedule (sched : list nat) (ts : list Thread) : M (list Thread) :=
  match sched with
  | [] => ret ts
  | i :: rest =>
      match nth_error ts i with
      | Some t => t' <- sum_step t ;; run_schedule rest (set_nth i t' ts)
      | None => run_schedule rest ts
      end
  end.

(** ** The atomic actions *)

Lemma sum_step_configure t w :
  th_pc t = AtConfigure ->
  sum_step t w = (Ret (with_pc t AtModel), with_key w (Some (th_key t))).
Proof. unfold sum_step. now intros ->. Qed.

Lemma sum_step_model t w :
  th_pc t = AtModel ->
  sum_step t w =
  match generative_model (th_model t) with
  | inl e => (Ret (with_pc t (Finished None)), Summarizer.with_error w e)
  | inr model => (Ret (with_pc t (AtGenerate model)), w)
  end.
Proof.
  unfold sum_step. intros ->. unfold try_except, bind.
  now destruct (generative_model (th_model t)).
Qed.

Lemma sum_step_generate t model w :
  th_pc t = AtGenerate model ->
  sum_step t w =
  let w2 := with_requests w (requests w ++
              [mkRequest (genai_api_key w) (model_name_of model)
                         (Prompt.build_prompt (th_text t))])%list in
  match Summarizer.reply_text (genai_api_key w) (model_name_of model)
          (Prompt.build_prompt (th_text t)) with
  | inl e => (Ret (with_pc t (Finished None)), Summarizer.with_error w2 e)
  | inr txt => (Ret (with_pc t (Finished (Some txt))), w2)
  end.
Proof.
  unfold sum_step. intros ->. unfold try_except, bind at 1.
  rewrite run_generate_content. unfold Summarizer.reply_text.
  destruct (service_reply _ _ _) as [e|r]; [reflexivity|].
  unfold bind. now destruct (response_text r).
Qed.

Lemma sum_step_finished t r w :
  th_pc t = Finished r -> sum_step t w = (Ret t, w).
Proof. unfold sum_step. now intros ->. Qed.

(** ** Calls that all use one key *)

(** A call has started when it has configured and not yet finished. *)
Definition started (t : Thread) : bool :=
  match th_pc t with
  | AtModel | AtGenerate _ => true
  | AtConfigure | Finished _ => false
  end.

(** Every call uses the key [k], and a started call finds the module
    configured with [k]. *)
Definition key_inv (k : string) (w : World) (ts : list Thread) : Prop :=
  Forall (fun t => th_key t = k /\ (started t = true -> genai_api_key w = Some k)) ts.

Lemma sum_step_key_inv k t w t' w' :
  th_key t = k -> (started t = true -> genai_api_key w = Some k) ->
  sum_step t w = (Ret t', w') ->
  th_key t' = k /\
  (genai_api_key w' = genai_api_key w \/ genai_api_key w' = Some k) /\
  (started t' = true -> genai_api_key w' = Some k) /\
  exists new, requests w' = (requests w ++ new)%list /\
              Forall (fun r => req_api_key r = Some k) new.
Proof.
  intros Hk Hs Hstep. subst k.
  destruct (th_pc t) as [| |model|r] eqn:Hpc.
  - rewrite sum_step_configure in Hstep by exact Hpc. injection Hstep as <- <-.
    split; [reflexivity|]. split; [now right|]. split; [reflexivity|].
    exists []. now rewrite app_nil_r.
  - rewrite sum_step_model in Hstep by exact Hpc. unfold started in Hs. rewrite Hpc in Hs.
    specialize (Hs eq_refl).
    destruct (generative_model _); injection Hstep as <- <-;
      (split; [reflexivity|]; split; [now left|]; split; [auto|]);
      exists []; now rewrite app_nil_r.
  - rewrite (sum_step_generate _ model) in Hstep by exact Hpc. cbn zeta in Hstep.
    unfold started in Hs. rewrite Hpc in Hs. specialize (Hs eq_refl).
    destruct (Summarizer.reply_text _ _ _); injection Hstep as <- <-;
      (split; [reflexivity|]; split; [now left|]; split; [auto|]);
      (eexists; split; [reflexivity | constructor; [exact Hs | constructor]]).
  - rewrite (sum_step_finished _ r) in Hstep by exact Hpc. injection Hstep as <- <-.
    split; [reflexivity|]. split; [now left|]. split; [exact Hs|].
    exists []. now rewrite app_nil_r.
Qed.

Lemma key_inv_step k w ts i t t' w' :
  key_inv k w ts -> nth_error ts i = Some t -> sum_step t w = (Ret t', w') ->
  key_inv k w' (set_nth i t' ts) /\
  exists new, requests w' = (requests w ++ new)%list /\
              Forall (fun r => req_api_key r = Some k) new.
Proof.
  intros Hinv Hi Hstep.
  destruct (Forall_nth_error _ _ _ _ Hinv Hi) as [Hk Hs].
  destruct (sum_step_key_inv k t w t' w' Hk Hs Hstep) as (Hk' & Hkey & Hs' & Hnew).
  split; [|exact Hnew]. apply Forall_set_nth; [|auto].
  eapply Forall_impl; [|exact Hinv]. intros u [Hu Hus]. split; [exact Hu|].
  intros Hsu. destruct Hkey as [-> | ->]; auto.
Qed.

(** Every call of [summarize_text] takes an action and does not raise. *)
Lemma sum_step_returns t w : exists t' w', sum_step t w = (Ret t', w').
Proof.
  destruct (th_pc t) as [| |model|r] eqn:Hpc.
  - rewrite sum_step_configure by exact Hpc. eauto.
  - rewrite sum_step_model by exact Hpc. destruct (generative_model _); eauto.
  - rewrite (sum_step_generate _ model) by exact Hpc. cbn zeta.
    destruct (Summarizer.reply_text _ _ _); eauto.
  - rewrite (sum_step_finished _ r) by exact Hpc. eauto.
Qed.

(** ** Properties *)

(** C19: the race of lines 22 and 68.  Two calls with keys [kA] and
    [kB]: if call A configures, then call B configures, then call A
    creates its model and sends, A's request (its model, the prompt built
    from A's document) goes out authenticated with B's key [kB]. *)
Theorem interleaved_calls_swap_keys kA kB mA mB tA tB modelA w :
  generative_model mA = inr modelA ->
  In (mkRequest (Some kB) (model_name_of modelA) (Prompt.build_prompt tA))
     (requests (snd (run_schedule [0; 1; 0; 0] [start kA mA tA; start kB mB tB] w))).
Proof.
  intros Hm. simpl run_schedule.
  unfold bind at 1. rewrite sum_step_configure by reflexivity. simpl.
  unfold bind at 1. rewrite sum_step_configure by reflexivity. simpl.
  unfold bind at 1. rewrite sum_step_model by reflexivity. simpl. rewrite Hm. simpl.
  unfold bind at 1. rewrite (sum_step_generate _ modelA) by reflexivity. cbn zeta. simpl.
  destruct (Summarizer.reply_text _ _ _); simpl; rewrite in_app_iff; simpl; auto.
Qed.

(** C20: calls that all use one key [k] (as the script's do: the key
    is the deployment secret) are safe under every interleaving: if every
    call already started finds the module configured with [k], then any
    schedule runs to its end without raising, and every request it sends
    is authenticated with [k]. *)
Theorem same_key_requests k sched ts w :
  key_inv k w ts ->
  exists ts' w' new,
    run_schedule sched ts w = (Ret ts', w') /\
    requests w' = (requests w ++ new)%list /\
    Forall (fun r => req_api_key r = Some k) new.
Proof.
  revert ts w. induction sched as [|i rest IH]; intros ts w Hinv; simpl.
  - exists ts, w, []. now rewrite app_nil_r.
  - destruct (nth_error ts i) as [t|] eqn:Hi; [|now apply IH].
    destruct (sum_step_returns t w) as (t' & w1 & Hstep).
    destruct (key_inv_step k w ts i t t' w1 Hinv Hi Hstep) as (Hinv1 & new1 & Hr1 & Hn1).
    destruct (IH _ _ Hinv1) as (ts' & w' & new2 & Hrun & Hr2 & Hn2).
    exists ts', w', (new1 ++ new2)%list. unfold bind. rewrite Hstep.
    split; [exact Hrun|]. split; [now rewrite Hr2, Hr1, app_assoc|].
    now apply Forall_app.
Qed.
End Race.

(** ** Witnesses *)

Definition race_genai : GenAILib :=
mock_genai ["gemini-2.5-pro"; "gemini-2.5-flash"] (fun _ _ _ => inr "### タイトル").

Definition empty_world : World := mkWorld None [] [].

Lemma interleaved_calls_swap_keys_witness :
In (mkRequest (Some "key-B") "gemini-2.5-pro" (Prompt.build_prompt "paper A"))
   (requests (snd (@run_schedule race_genai [0; 1; 0; 0]
      [start "key-A" "gemini-2.5-pro" "paper A"; start "key-B" "gemini-2.5-flash" "paper B"]
      empty_world))).
Proof.
apply (@interleaved_calls_swap_keys race_genai "key-A" "key-B" "gemini-2.5-pro"
         "gemini-2.5-flash" "paper A" "paper B" "gemini-2.5-pro").
reflexivity.
Defined.

Lemma same_key_requests_witness :
exists ts' w' new,
  @run_schedule race_genai [0; 1; 1; 0; 0; 1]
    [start "key" "gemini-2.5-pro" "paper A"; start "key" "gemini-2.5-flash" "paper B"]
    empty_world = (Ret ts', w') /\
  requests w' = (requests empty_world ++ new)%list /\
  Forall (fun r => req_api_key r = Some "key") new.
Proof.
apply same_key_requests.
repeat constructor; discriminate.
Defined.
End Race.
