(* ===== verification/Runs.v ===== *)
(** * Runs: the deployed app over many reruns

    What holds of every page the script draws and of the process across
    its reruns: no exception ever reaches Streamlit's runner, and the
    requests sent are bounded by the clicks.  [run_sessions] is a sequence
    of reruns as a left fold over the sessions that trigger them. *)

From Stdlib Require Import String List Bool Lia.
From S2P Require Import Prelude Effects Libraries Extractor Prompt Summarizer App.
Import ListNotations.

Local Open Scope string_scope.
Local Open Scope ste_scope.

Module Runs.
Import App.

Section Runs.
Context `{PdfLib} `{GenAILib}.

(** Reruns of the script, one per session, in order. *)
Definition run_sessions (ss : list Session) (w : World) : World :=
  fold_left (fun w s => run_script s w) ss w.

Definition not_exception (el : Element) : Prop :=
  match el with
  | ExceptionBox _ => False
  | _ => True
  end.

(** ** Lemmas *)

(** A list of elements each of which has a property by computation. *)
Ltac forall_by_computation :=
  repeat (apply Forall_cons; [exact I|]); apply Forall_nil.

(** A property of page elements that the fixed parts of the pages and
    every element of the pipeline have holds of every element a run
    draws. *)
Lemma run_script_page_forall (P : Element -> Prop) s w :
  Forall P blocked_page -> Forall P ready_page -> P (WarningBox upload_warning) ->
  (forall el, pipeline_element (model_id (selected_model s)) el -> P el) ->
  Forall P (page (run_script s w)).
Proof.
  intros Hb Hr Hw Hp. rewrite run_script_spec. unfold script_result.
  destruct (secret_api_key s) as [key|]; [|exact Hb].
  destruct (str_truthy key), (clicked s), (uploaded s) as [file|];
    try exact Hb; try exact Hr;
    try (apply Forall_app; split; [exact Hr | now repeat constructor]).
  pose proof (pipeline_effect_elements key (model_id (selected_model s)) file) as He.
  destruct (pipeline_effect _ _ _) as [[k els] reqs]. rename He into Hels.
  apply Forall_app. split; [exact Hr|]. eapply Forall_impl; [exact Hp | exact Hels].
Qed.

Lemma run_script_requests_le s w :
  length (requests (run_script s w)) <= length (requests w) + (if clicked s then 1 else 0).
Proof.
  rewrite run_script_spec. unfold script_result.
  destruct (secret_api_key s) as [key|]; [|simpl; lia].
  destruct (str_truthy key), (clicked s), (uploaded s) as [file|]; simpl; try lia.
  rewrite apply_effect_requests, length_app. simpl.
  destruct (pipeline_effect_requests key (model_id (selected_model s)) file)
    as [-> | (text & model & _ & _ & _ & ->)]; simpl; lia.
Qed.

(** ** Properties *)

(** C22: no exception ever escapes the script to Streamlit's runner:
    both handlers catch everything the libraries raise, so no run shows a
    traceback, whatever the libraries do. *)
Theorem run_script_no_exception s w msg :
  ~ In (ExceptionBox msg) (page (run_script s w)).
Proof.
  intros Hin.
  assert (Hall : Forall not_exception (page (run_script s w))).
  { apply run_script_page_forall; [forall_by_computation | forall_by_computation | exact I|].
    intros el Hel. destruct el; try exact I; exact Hel. }
  rewrite Forall_forall in Hall. exact (Hall _ Hin).
Qed.

(** C23: over any sequence of reruns, the process sends at most one
    request per click: reruns triggered by other widgets send nothing. *)
Theorem run_sessions_requests_bounded ss w :
  length (requests (run_sessions ss w)) <= length (requests w) + length (filter clicked ss).
Proof.
  revert w. induction ss as [|s ss IH]; intros w; simpl; [lia|].
  specialize (IH (run_script s w)). pose proof (run_script_requests_le s w).
  destruct (clicked s); simpl; lia.
Qed.

End Runs.
End Runs.
