(* ===== verification/Sessions.v ===== *)
(** * Sessions: concurrent runs of the script in one process

    Streamlit runs the script of each browser session in a thread of its
    own.  What a run draws goes to its own session's page, while the
    [google.generativeai] module (its configured key) and the outbound
    requests are shared by the whole process.  A [SessionRun] is one run
    in progress: its session, its page, and where it stands
    ([RunPc]): before line 76, inside the [with] block of line 103 with a
    call of [summarize_text] in progress (a [Race.Thread]), or finished.
    [session_step] is one atomic action of a run: the whole prefix of the
    script up to the call (lines 76-103, which touches only the page), one
    atomic action of [summarize_text] (the actions of [Race.sum_step],
    which read and write the shared state), or the rest of the script
    (lines 103-108).  [run_interleaved] runs the runs of several sessions
    by a schedule.

    A run alone, given five actions, ends as [App.run_script] ends
    ([run_alone_eq]); the theorems show that, on one
    deployment (every session reads the same secret), each session of an
    interleaved execution is exactly the run of that session alone for as
    many actions as the schedule gave it, so the concurrent sessions
    cannot see each other; that every request they send carries the
    deployment's key, and the log is a shuffle of what each session sends
    alone; and that a schedule giving every session five actions finishes
    each run with the page it would draw alone. *)

From Stdlib Require Import String List Bool Lia PeanoNat.
From S2P Require Import Prelude Effects Libraries Extractor Prompt Summarizer App Race.
Import ListNotations.

Local Open Scope string_scope.
Local Open Scope ste_scope.

#[local] Arguments String.append : simpl never.
#[local] Arguments st_spinner : simpl never.

Module Sessions.
Import App Race.

Section Sessions.
Context `{PdfLib} `{GenAILib}.

(** The state the sessions share: the genai module's key and the
    process's request log. *)
Record Shared : Type := mkShared {
  sh_key : option string;
  sh_requests : list Request
}.

Definition shared_of (w : World) : Shared := mkShared (genai_api_key w) (requests w).

(** The world a run sees: the shared state and its own page. *)
Definition local (sh : Shared) (p : list Element) : World :=
  mkWorld (sh_key sh) p (sh_requests sh).

(** Where a run of the script stands. *)
Inductive RunPc : Type :=
| RunStart                         (* before line 76 *)
| RunSummarizing (t : Thread)      (* inside the with of line 103 *)
| RunDone.

Record SessionRun : Type := mkRun {
  run_session : Session;
  run_page : list Element;
  run_pc : RunPc
}.

(** A run starts on a blank page. *)
Definition start_run (s : Session) : SessionRun := mkRun s [] RunStart.

(** Lines 76-103, up to the call of [summarize_text] on line 104: the
    script as [App.app_script] runs it, returning the arguments of the
    call when the run gets there. *)
Definition script_prefix (s : Session) : M (option (string * string * string)) :=
  st_title app_title ;;
  st_sidebar_header sidebar_title ;;
  let api_key := secret_api_key s in
  (if negb (opt_str_truthy api_key)
   then st_sidebar_error admin_message ;; st_stop
   else ret tt) ;;
  model_name <- st_selectbox model_label model_options (model_id (selected_model s)) ;;
  uploaded_file <- st_file_uploader uploader_label "pdf" (uploaded s) ;;
  clicked <- st_button button_label (clicked s) ;;
  if clicked then
    match api_key, uploaded_file with
    | Some key, Some file =>
        if str_truthy key then
          paper_text <- st_spinner reading_spinner
                          (Extractor.extract_text_from_pdf file) ;;
          match paper_text with
          | Some text =>
              if str_truthy text then
                emit (SpinnerStart (model_name ++ summarizing_suffix)) ;;
                ret (Some (key, model_name, text))
              else ret None
          | None => ret None
          end
        else missing_input_warning api_key ;; ret None
    | _, _ => missing_input_warning api_key ;; ret None
    end
  else ret None.

(** Lines 103-108 after [summarize_text] returned [summary]: the
    spinner is cleared, then the result is drawn when it is not empty. *)
Definition script_suffix (summary : option string) : M unit :=
  emit SpinnerEnd ;;
  match summary with
  | Some sm =>
      if str_truthy sm then st_subheader result_heading ;; st_markdown sm
      else ret tt
  | None => ret tt
  end.

(** Streamlit's runner around an action of a run: the run goes on at
    [k a] when the action returns [a]; [StopException] ends it quietly,
    any other exception ends it with the exception shown. *)
Definition settle {A} (s : Session) (k : A -> RunPc) (res : outcome PyExc A * World)
    : SessionRun * Shared :=
  let '(o, w') := res in
  (match o with
   | Ret a => mkRun s (page w') (k a)
   | Raise StopException => mkRun s (page w') RunDone
   | Raise (Exc msg) => mkRun s (page w' ++ [ExceptionBox msg]) RunDone
   end, shared_of w').

(** One atomic action of a run. *)
Definition session_step (r : SessionRun) (sh : Shared) : SessionRun * Shared :=
  let s := run_session r in
  match run_pc r with
  | RunStart =>
      settle s (fun p => match p with
                         | Some (key, model_name, text) =>
                             RunSummarizing (start key model_name text)
                         | None => RunDone
                         end)
             (script_prefix s (local sh []))
  | RunSummarizing t =>
      match th_pc t with
      | Finished summary =>
          settle s (fun _ => RunDone) (script_suffix summary (local sh (run_page r)))
      | _ => settle s RunSummarizing (sum_step t (local sh (run_page r)))
      end
  | RunDone => (r, sh)
  end.

(** The runs [rs] of several sessions, by the schedule [sched]: each
    entry names the run that takes the next action; an index out of
    range is a no-op. *)
Fixpoint run_interleaved (sched : list nat) (rs : list SessionRun) (sh : Shared)
    : list SessionRun * Shared :=
  match sched with
  | [] => (rs, sh)
  | i :: rest =>
      match nth_error rs i with
      | Some r =>
          let '(r', sh') := session_step r sh in
          run_interleaved rest (set_nth i r' rs) sh'
      | None => run_interleaved rest rs sh
      end
  end.

(** ** One deployment *)

(** What a run in progress needs of the shared state on a deployment
    whose secret is [secret]: its call uses that key, and once the call
    has configured the module, the module holds that key. *)
Definition run_inv (secret : option string) (sh : Shared) (r : SessionRun) : Prop :=
  match run_pc r with
  | RunSummarizing t => Some (th_key t) = secret /\ (started t = true -> sh_key sh = secret)
  | RunStart | RunDone => True
  end.

(** An action of a run as it is in a process where the module holds the
    deployment's key: what the run does alone. *)
Definition local_step (secret : option string) (r : SessionRun) : SessionRun :=
  fst (session_step r (mkShared secret [])).

(** ** Run equations *)

(** What the prefix of a run returns and draws on a blank page, on
    every branch. *)
Definition prefix_result (s : Session)
    : outcome PyExc (option (string * string * string)) * list Element :=
  let model_name := model_id (selected_model s) in
  match secret_api_key s with
  | Some key =>
      if str_truthy key then
        if clicked s then
          match uploaded s with
          | Some file =>
              match Extractor.pdf_text file with
              | inl msg =>
                  (Ret None, ready_page ++ [SpinnerStart reading_spinner;
                                            ErrorBox (Extractor.extract_error_prefix ++ msg);
                                            SpinnerEnd])
              | inr text =>
                  if str_truthy text then
                    (Ret (Some (key, model_name, text)),
                     ready_page ++ [SpinnerStart reading_spinner; SpinnerEnd;
                                    SpinnerStart (model_name ++ summarizing_suffix)])
                  else (Ret None, ready_page ++ [SpinnerStart reading_spinner; SpinnerEnd])
              end
          | None => (Ret None, ready_page ++ [WarningBox upload_warning])
          end
        else (Ret None, ready_page)
      else (Raise StopException, blocked_page)
  | None => (Raise StopException, blocked_page)
  end%list.

(** The prefix draws [prefix_result] and leaves the shared state alone. *)
Lemma script_prefix_eq s k rs :
  script_prefix s (mkWorld k [] rs) =
  (fst (prefix_result s), mkWorld k (snd (prefix_result s)) rs).
Proof.
  unfold script_prefix, prefix_result. cbv zeta.
  destruct (secret_api_key s) as [key|]; [|reflexivity].
  simpl opt_str_truthy. destruct (str_truthy key) eqn:Hk; [|reflexivity].
  unfold st_title, st_sidebar_header, st_selectbox, st_file_uploader, st_button,
    emit, modify, bind, ret, with_page; simpl.
  destruct (clicked s); [|reflexivity].
  destruct (uploaded s) as [file|];
    [|unfold missing_input_warning, st_warning, emit, modify; simpl; now rewrite Hk].
  rewrite ?Hk, run_spinner; cbv zeta.
  rewrite Extractor.extract_text_from_pdf_eq. unfold with_page; simpl.
  destruct (Extractor.pdf_text file) as [msg|text]; simpl; [list_eq|].
  destruct (str_truthy text); unfold emit, modify, bind, with_page; simpl; list_eq.
Qed.

(** The rest of a run draws on its own page only. *)
Lemma script_suffix_eq summary k p rs :
  script_suffix summary (mkWorld k p rs) =
  (Ret tt, mkWorld k (p ++ SpinnerEnd ::
                      match summary with
                      | Some sm => if str_truthy sm then [Subheader result_heading; Markdown sm]
                                   else []
                      | None => []
                      end) rs).
Proof.
  unfold script_suffix, st_subheader, st_markdown, emit, modify, bind, with_page; simpl.
  destruct summary as [sm|]; [destruct (str_truthy sm)|]; simpl; list_eq.
Qed.

Lemma run_alone_eq s w :
  run_interleaved [0; 0; 0; 0; 0] [start_run s] (shared_of w) =
  ([mkRun s (page (run_script s w)) RunDone], shared_of (run_script s w)).
Proof.
  rewrite run_script_spec. unfold script_result. destruct w as [k p0 rs].
  cbn [run_interleaved nth_error set_nth]. unfold session_step at 1.
  cbn [run_pc run_session start_run]. unfold local, shared_of; cbn [sh_key sh_requests].
  rewrite script_prefix_eq. unfold prefix_result. cbv zeta.
  destruct (secret_api_key s) as [key|]; [|reflexivity].
  destruct (str_truthy key) eqn:Hk; [|reflexivity].
  destruct (clicked s); [|reflexivity].
  destruct (uploaded s) as [file|]; [|reflexivity].
  unfold pipeline_effect.
  destruct (Extractor.pdf_text file) as [msg|text]; [simpl; list_eq|].
  destruct (str_truthy text) eqn:Ht; [|simpl; list_eq].
  cbn [settle fst snd run_interleaved nth_error set_nth]. unfold session_step at 1.
  cbn [run_pc run_session start th_pc]. rewrite sum_step_configure by reflexivity.
  cbn [settle]. unfold session_step at 1.
  cbn [run_pc run_session with_pc start th_pc]. rewrite sum_step_model by reflexivity.
  cbn [with_pc start th_model].
  destruct (generative_model (model_id (selected_model s))) as [msg|model].
  - cbn [settle]. unfold session_step at 1. cbn [run_pc run_session with_pc start th_pc].
    unfold script_suffix, Summarizer.with_error, emit, modify, bind; simpl. list_eq.
  - cbn [settle]. unfold session_step at 1. cbn [run_pc run_session with_pc start th_pc].
    rewrite (sum_step_generate _ model) by reflexivity. cbn zeta.
    cbn [with_pc start th_text local shared_of genai_api_key].
    destruct (Summarizer.reply_text _ _ _) as [msg|sm].
    + cbn [settle]. unfold session_step at 1. cbn [run_pc run_session with_pc start th_pc].
      unfold script_suffix, Summarizer.with_error, emit, modify, bind; simpl. list_eq.
    + cbn [settle]. unfold session_step at 1. cbn [run_pc run_session with_pc start th_pc].
      unfold script_suffix, st_subheader, st_markdown, emit, modify, bind; simpl.
      destruct (str_truthy sm); simpl; list_eq.
Qed.

(** ** Actions of a run on one deployment *)

Lemma run_inv_shared secret sh sh' r :
  run_inv secret sh r -> (sh_key sh' = sh_key sh \/ sh_key sh' = secret) ->
  run_inv secret sh' r.
Proof.
  unfold run_inv. destruct (run_pc r) as [|t|]; auto.
  intros [Ht Hs] [Hk|Hk]; split; auto; intros Hst; rewrite Hk; auto.
Qed.

(** What an action of a run does to the shared state when the run's
    call uses the key [secret]: the module ends holding its old key or
    [secret], and every request sent carries [secret]. *)
Definition shared_step (secret : option string) (sh sh' : Shared) : Prop :=
  (sh_key sh' = sh_key sh \/ sh_key sh' = secret) /\
  exists new, sh_requests sh' = (sh_requests sh ++ new)%list /\
              Forall (fun q => req_api_key q = secret) new.

Lemma shared_step_refl secret sh : shared_step secret sh sh.
Proof. split; [now left|]. exists []. now rewrite app_nil_r. Qed.

Lemma shared_step_trans secret sh1 sh2 sh3 :
  shared_step secret sh1 sh2 -> shared_step secret sh2 sh3 -> shared_step secret sh1 sh3.
Proof.
  intros [Hk1 (n1 & Hr1 & Hn1)] [Hk2 (n2 & Hr2 & Hn2)]. split.
  - destruct Hk2 as [-> | ->]; auto.
  - exists (n1 ++ n2)%list. rewrite Hr2, Hr1, app_assoc. split; [reflexivity|].
    now apply Forall_app.
Qed.

(** The prefix reaches the call of [summarize_text] only with the
    session's secret as the key. *)
Lemma prefix_result_key s key model_name text :
  fst (prefix_result s) = Ret (Some (key, model_name, text)) ->
  secret_api_key s = Some key.
Proof.
  unfold prefix_result. destruct (secret_api_key s) as [k|]; [|discriminate].
  destruct (str_truthy k), (clicked s), (uploaded s) as [file|];
    try discriminate; [].
  destruct (Extractor.pdf_text file); [discriminate|].
  destruct (str_truthy _); simpl; congruence.
Qed.

(** The requests an action of a run sends in a process whose module
    holds the deployment's key, and those of [n] actions in a row. *)
Definition step_requests (secret : option string) (r : SessionRun) : list Request :=
  sh_requests (snd (session_step r (mkShared secret []))).

Fixpoint run_requests (secret : option string) (n : nat) (r : SessionRun) : list Request :=
  match n with
  | 0 => []
  | S n' => step_requests secret r ++ run_requests secret n' (local_step secret r)
  end.

(** An action that leaves the shared state alone. *)
Ltac shared_unchanged :=
  split; [now left|]; split; [cbn; now rewrite app_nil_r | constructor].

(** On a deployment, an action of a run is what the run does alone: it
    keeps the condition of the run, writes only the deployment's key, and
    sends what the run alone sends, each request carrying that key. *)
Lemma session_step_local secret r sh :
  secret_api_key (run_session r) = secret -> run_inv secret sh r ->
  let '(r', sh') := session_step r sh in
  r' = local_step secret r /\ run_session r' = run_session r /\ run_inv secret sh' r' /\
  (sh_key sh' = sh_key sh \/ sh_key sh' = secret) /\
  sh_requests sh' = (sh_requests sh ++ step_requests secret r)%list /\
  Forall (fun q => req_api_key q = secret) (step_requests secret r).
Proof.
  destruct r as [s p pc]; cbn [run_session]; intros Hs Hinv.
  unfold local_step, step_requests, session_step; cbn [run_session run_pc run_page].
  unfold run_inv in Hinv; cbn [run_pc] in Hinv.
  destruct pc as [|t|].
  - unfold local. rewrite !script_prefix_eq. destruct sh as [k rs].
    cbn [settle fst snd shared_of genai_api_key requests page].
    destruct (fst (prefix_result s)) as [[[[key m] text]|]|[msg|]] eqn:Hp;
      (split; [reflexivity|]); (split; [reflexivity|]); (split; [|shared_unchanged]);
      cbn; auto.
    split; [|discriminate]. subst secret. symmetry. exact (prefix_result_key s key m text Hp).
  - destruct Hinv as [Hkey Hst]. destruct sh as [k rs]. cbn [sh_key] in Hst.
    unfold started in Hst. unfold local; cbn [sh_key sh_requests].
    destruct (th_pc t) as [| |model|summary] eqn:Hpc.
    + rewrite !sum_step_configure by exact Hpc.
      cbn [settle with_key page shared_of genai_api_key requests fst snd].
      split; [reflexivity|]. split; [reflexivity|].
      split; [cbn; auto|]. split; [now right|]. split; [cbn; now rewrite app_nil_r|].
      constructor.
    + specialize (Hst eq_refl). rewrite !sum_step_model by exact Hpc.
      destruct (generative_model _);
        cbn [settle Summarizer.with_error with_page page shared_of genai_api_key requests
             fst snd];
        (split; [reflexivity|]); (split; [reflexivity|]);
        (split; [cbn; auto; discriminate|]); shared_unchanged.
    + specialize (Hst eq_refl). rewrite !(sum_step_generate _ model) by exact Hpc. cbn zeta.
      cbn [genai_api_key]. rewrite Hst.
      destruct (Summarizer.reply_text _ _ _);
        cbn [settle Summarizer.with_error with_page with_requests page shared_of
             genai_api_key requests fst snd];
        (split; [reflexivity|]); (split; [reflexivity|]);
        (split; [cbn; auto; discriminate|]);
        (split; [now left|]); (split; [reflexivity | now constructor]).
    + rewrite !script_suffix_eq. cbn [settle page shared_of genai_api_key requests fst snd].
      split; [reflexivity|]. split; [reflexivity|]. split; [exact I|]. shared_unchanged.
  - split; [reflexivity|]. split; [reflexivity|]. split; [exact I|]. shared_unchanged.
Qed.


(** The requests each run of [rs] sends in the actions [sched] gives it. *)
Definition sched_requests (secret : option string) (sched : list nat)
    (rs : list SessionRun) (i : nat) : list Request :=
  match nth_error rs i with
  | Some r => run_requests secret (count_occ Nat.eq_dec sched i) r
  | None => []
  end.

Lemma shared_step_one secret sh sh' new :
  (sh_key sh' = sh_key sh \/ sh_key sh' = secret) ->
  sh_requests sh' = (sh_requests sh ++ new)%list ->
  Forall (fun q => req_api_key q = secret) new -> shared_step secret sh sh'.
Proof. intros Hk Hr Hn. split; [exact Hk|]. now exists new. Qed.

(** Every run of [rs] belongs to the deployment and meets its condition. *)
Definition runs_inv (secret : option string) (rs : list SessionRun) (sh : Shared) : Prop :=
  forall i r, nth_error rs i = Some r ->
  secret_api_key (run_session r) = secret /\ run_inv secret sh r.

Lemma runs_inv_set_nth secret rs sh sh' i r r' :
  runs_inv secret rs sh -> nth_error rs i = Some r ->
  run_session r' = run_session r -> run_inv secret sh' r' ->
  (sh_key sh' = sh_key sh \/ sh_key sh' = secret) ->
  runs_inv secret (set_nth i r' rs) sh'.
Proof.
  intros Hinv Hi Hs Hr Hk j q Hj.
  assert (Hlt : i < length rs) by (apply nth_error_Some; congruence).
  destruct (Nat.eq_dec i j) as [<-|Hne].
  - rewrite nth_error_set_nth_eq in Hj by exact Hlt. injection Hj as <-.
    rewrite Hs. split; [apply (Hinv i r Hi)|exact Hr].
  - rewrite nth_error_set_nth_ne in Hj by exact Hne.
    destruct (Hinv j q Hj) as [Hq1 Hq2]. split; [exact Hq1|].
    eapply run_inv_shared; [exact Hq2 | exact Hk].
Qed.

(** The runs the head of the schedule does not name are not affected. *)
Lemma sched_requests_other secret i rest rs rs' j :
  i <> j -> nth_error rs' j = nth_error rs j ->
  sched_requests secret (i :: rest) rs j = sched_requests secret rest rs' j.
Proof.
  intros Hne Hj. unfold sched_requests. rewrite Hj.
  now rewrite count_occ_cons_neq by exact Hne.
Qed.

(** On a deployment, every run of an interleaved execution is the run
    alone after as many actions as the schedule gave it; the shared state
    only ever takes the deployment's key and requests carrying it; and the
    requests sent are a shuffle of what each run sends alone. *)
Lemma run_interleaved_inv secret sched rs sh :
  runs_inv secret rs sh ->
  length (fst (run_interleaved sched rs sh)) = length rs /\
  (forall i r, nth_error rs i = Some r ->
     nth_error (fst (run_interleaved sched rs sh)) i =
     Some (Nat.iter (count_occ Nat.eq_dec sched i) (local_step secret) r)) /\
  shared_step secret sh (snd (run_interleaved sched rs sh)) /\
  exists new, sh_requests (snd (run_interleaved sched rs sh)) = (sh_requests sh ++ new)%list /\
              interleaves (sched_requests secret sched rs) new.
Proof.
  revert rs sh. induction sched as [|i rest IH]; intros rs sh Hinv;
    cbn [run_interleaved fst snd].
  { split; [reflexivity|]. split; [now intros j r ->|]. split; [apply shared_step_refl|].
    exists []. split; [now rewrite app_nil_r|]. constructor. intros j.
    unfold sched_requests. now destruct (nth_error rs j). }
  destruct (nth_error rs i) as [r|] eqn:Hi.
  2: { destruct (IH rs sh Hinv) as (Hlen & Hnth & Hsh & new & Hnew & Hil).
       split; [exact Hlen|]. split.
       { intros j q Hj. rewrite count_occ_cons_neq by congruence. now apply Hnth. }
       split; [exact Hsh|]. exists new. split; [exact Hnew|].
       eapply interleaves_ext; [|exact Hil]. intros j.
       destruct (Nat.eq_dec i j) as [<-|Hne]; [unfold sched_requests; now rewrite Hi|].
       symmetry. now apply sched_requests_other. }
  destruct (Hinv i r Hi) as [Hs Hr].
  pose proof (session_step_local secret r sh Hs Hr) as Hloc.
  destruct (session_step r sh) as [r' sh'].
  destruct Hloc as (Hloc & Hsess & Hinv' & Hkey & Hreq & Hfor).
  assert (Hlt : i < length rs) by (apply nth_error_Some; congruence).
  destruct (IH (set_nth i r' rs) sh') as (Hlen & Hnth & Hsh2 & new & Hnew & Hil);
    [eapply runs_inv_set_nth; eauto|].
  split; [now rewrite Hlen, length_set_nth|]. split.
  { intros j q Hj. destruct (Nat.eq_dec i j) as [<-|Hne].
    - rewrite Hi in Hj. injection Hj as <-.
      rewrite (Hnth i r') by (now apply nth_error_set_nth_eq).
      rewrite count_occ_cons_eq by reflexivity. now rewrite Nat.iter_succ_r, <- Hloc.
    - rewrite (Hnth j q) by (now rewrite nth_error_set_nth_ne).
      now rewrite count_occ_cons_neq by exact Hne. }
  split; [eapply shared_step_trans; [eapply shared_step_one; eauto | exact Hsh2]|].
  exists (step_requests secret r ++ new)%list.
  split; [now rewrite Hnew, Hreq, app_assoc|].
  apply (interleaves_app _ i _ (sched_requests secret rest (set_nth i r' rs) i)).
  - unfold sched_requests. rewrite Hi, nth_error_set_nth_eq by exact Hlt.
    rewrite count_occ_cons_eq by reflexivity. cbn [run_requests]. now rewrite <- Hloc.
  - eapply interleaves_ext; [|exact Hil]. intros j. unfold fupd.
    destruct (Nat.eqb_spec j i) as [->|Hne]; [reflexivity|].
    symmetry. apply sched_requests_other; [congruence|]. apply nth_error_set_nth_ne. congruence.
Qed.

Lemma start_runs_inv secret ss sh :
  Forall (fun s => secret_api_key s = secret) ss -> runs_inv secret (map start_run ss) sh.
Proof.
  intros Hss i r Hi. rewrite nth_error_map in Hi.
  destruct (nth_error ss i) as [s|] eqn:Hs; [|discriminate]. injection Hi as <-.
  split; [exact (Forall_nth_error _ _ _ _ Hss Hs) | exact I].
Qed.

(** A run alone, given [n] actions, from any state of the process. *)
Lemma run_alone_local s sh n :
  fst (run_interleaved (repeat 0 n) [start_run s] sh) =
  [Nat.iter n (local_step (secret_api_key s)) (start_run s)].
Proof.
  destruct (run_interleaved_inv (secret_api_key s) (repeat 0 n) [start_run s] sh)
    as (Hlen & Hnth & _).
  { apply (start_runs_inv _ [s]). now constructor. }
  specialize (Hnth 0 (start_run s) eq_refl).
  rewrite count_occ_repeat_eq in Hnth by reflexivity.
  destruct (fst (run_interleaved _ _ _)) as [|r [|r' rs]]; try discriminate.
  now injection Hnth as ->.
Qed.

(** What a run alone sends in [n] actions, from any state of the process. *)
Lemma run_alone_requests s sh n :
  sh_requests (snd (run_interleaved (repeat 0 n) [start_run s] sh)) =
  (sh_requests sh ++ run_requests (secret_api_key s) n (start_run s))%list.
Proof.
  destruct (run_interleaved_inv (secret_api_key s) (repeat 0 n) [start_run s] sh)
    as (_ & _ & _ & new & Hnew & Hil).
  { apply (start_runs_inv _ [s]). now constructor. }
  rewrite Hnew, (interleaves_one _ _ Hil).
  - unfold sched_requests. cbn [nth_error]. now rewrite count_occ_repeat_eq.
  - intros [|j] Hj; [congruence|]. unfold sched_requests. now destruct j.
Qed.

Lemma local_step_done secret r : run_pc r = RunDone -> local_step secret r = r.
Proof. unfold local_step, session_step. now intros ->. Qed.

(** A run alone finishes within five actions with the page of [run_script]. *)
Lemma run_alone_done s w n :
  5 <= n ->
  Nat.iter n (local_step (secret_api_key s)) (start_run s) =
  mkRun s (page (run_script s w)) RunDone.
Proof.
  intros Hn. replace n with ((n - 5) + 5) by lia. rewrite Nat.iter_add.
  assert (H5 : Nat.iter 5 (local_step (secret_api_key s)) (start_run s) =
               mkRun s (page (run_script s w)) RunDone).
  { pose proof (run_alone_local s (shared_of w) 5) as Hl.
    rewrite run_alone_eq in Hl. now injection Hl. }
  rewrite H5. apply iter_fixed. now apply local_step_done.
Qed.

(** ** Properties *)

(** C24: the sessions of one deployment (every session reads the same
    secret) cannot see each other.  Whatever the schedule interleaving
    their runs, each run is in the very state it reaches when it runs
    alone, in any state of the process, for as many actions as the
    schedule gave it: the shared genai configuration never changes what
    a session sends, receives or draws. *)
Theorem interleaved_session_alone secret sched ss sh sh0 i s :
  Forall (fun s => secret_api_key s = secret) ss -> nth_error ss i = Some s ->
  nth_error (fst (run_interleaved sched (map start_run ss) sh)) i =
  nth_error (fst (run_interleaved (repeat 0 (count_occ Nat.eq_dec sched i))
                                  [start_run s] sh0)) 0.
Proof.
  intros Hss Hi. rewrite run_alone_local.
  destruct (run_interleaved_inv secret sched _ sh (start_runs_inv secret ss sh Hss))
    as (_ & Hnth & _).
  rewrite (Hnth i (start_run s)) by (now rewrite nth_error_map, Hi).
  rewrite (Forall_nth_error _ _ _ _ Hss Hi). reflexivity.
Qed.

(** C25: every request the concurrent sessions of one deployment send,
    under any schedule, is authenticated with the deployment's secret,
    and the genai module is left holding its old key or that secret. *)
Theorem interleaved_requests_secret secret sched ss sh :
  Forall (fun s => secret_api_key s = secret) ss ->
  let sh' := snd (run_interleaved sched (map start_run ss) sh) in
  (sh_key sh' = sh_key sh \/ sh_key sh' = secret) /\
  exists new, sh_requests sh' = (sh_requests sh ++ new)%list /\
              Forall (fun q => req_api_key q = secret) new.
Proof.
  intros Hss. exact (proj1 (proj2 (proj2 (run_interleaved_inv secret sched _ sh
                                            (start_runs_inv secret ss sh Hss))))).
Qed.

(** C26: a schedule that gives each session of a deployment five
    actions finishes every run, and each session's page is the page the
    script draws for it alone ([App.run_script], in any state of the
    process): concurrent users each see their own result. *)
Theorem fair_sessions_finish secret sched ss sh w i s :
  Forall (fun s => secret_api_key s = secret) ss ->
  (forall j, j < length ss -> 5 <= count_occ Nat.eq_dec sched j) ->
  nth_error ss i = Some s ->
  nth_error (fst (run_interleaved sched (map start_run ss) sh)) i =
  Some (mkRun s (page (run_script s w)) RunDone).
Proof.
  intros Hss Hfair Hi.
  destruct (run_interleaved_inv secret sched _ sh (start_runs_inv secret ss sh Hss))
    as (_ & Hnth & _).
  rewrite (Hnth i (start_run s)) by (now rewrite nth_error_map, Hi).
  rewrite <- (Forall_nth_error _ _ _ _ Hss Hi). f_equal. apply run_alone_done.
  apply Hfair, nth_error_Some. congruence.
Qed.

(** C27: the order of the requests.  Under any schedule, the requests
    the sessions of one deployment add to the process's log are a shuffle
    of the requests each session sends when it runs alone (in a freshly
    started process) for as many actions as the schedule gave it: nothing
    is lost, duplicated or invented, and each session's requests keep
    their order. *)
Theorem interleaved_requests_shuffle secret sched ss sh :
  Forall (fun s => secret_api_key s = secret) ss ->
  exists new,
    sh_requests (snd (run_interleaved sched (map start_run ss) sh)) =
      (sh_requests sh ++ new)%list /\
    interleaves (fun i =>
                   match nth_error ss i with
                   | Some s =>
                       sh_requests (snd (run_interleaved
                                           (repeat 0 (count_occ Nat.eq_dec sched i))
                                           [start_run s] (mkShared None [])))
                   | None => []
                   end) new.
Proof.
  intros Hss.
  destruct (run_interleaved_inv secret sched _ sh (start_runs_inv secret ss sh Hss))
    as (_ & _ & _ & new & Hnew & Hil).
  exists new. split; [exact Hnew|]. eapply interleaves_ext; [|exact Hil]. intros i.
  unfold sched_requests. rewrite nth_error_map.
  destruct (nth_error ss i) as [s|] eqn:Hi; [|reflexivity]. cbn [option_map].
  rewrite run_alone_requests, (Forall_nth_error _ _ _ _ Hss Hi). reflexivity.
Qed.

End Sessions.

(** ** Witnesses *)

(** Two sessions of one deployment: one asks for gemini-2.5-flash, the
    other for gemini-2.5-pro, on the same paper. *)
Definition flash_session : Session := demo_session (Some "demo-key") (Some demo_file).
Definition pro_session : Session := mkSession (Some "demo-key") Gemini25Pro (Some demo_file) true.

(** Their actions alternate; the second session, given three actions,
    is where it would be after three actions alone, in a process whose
    module holds another key. *)
Lemma interleaved_session_alone_witness :
  let g := demo_genai (inr demo_summary) in
  nth_error (fst (@run_interleaved demo_pdf g [0; 1; 0; 1; 1; 0]
                    (map start_run [flash_session; pro_session]) (mkShared None []))) 1 =
  nth_error (fst (@run_interleaved demo_pdf g
                    (repeat 0 (count_occ Nat.eq_dec [0; 1; 0; 1; 1; 0] 1))
                    [start_run pro_session] (mkShared (Some "other-key") []))) 0.
Proof.
  apply (@interleaved_session_alone demo_pdf (demo_genai (inr demo_summary))
           (Some "demo-key")); [repeat constructor | reflexivity].
Defined.

Lemma interleaved_requests_secret_witness :
  let g := demo_genai (inr demo_summary) in
  let sh' := snd (@run_interleaved demo_pdf g [0; 1; 0; 1; 1; 0; 1; 0]
                    (map start_run [flash_session; pro_session]) (mkShared None [])) in
  (sh_key sh' = None \/ sh_key sh' = Some "demo-key") /\
  exists new, sh_requests sh' = ([] ++ new)%list /\
              Forall (fun q => req_api_key q = Some "demo-key") new.
Proof.
  apply (@interleaved_requests_secret demo_pdf (demo_genai (inr demo_summary))
           (Some "demo-key")).
  repeat constructor.
Defined.

(** Five actions each, interleaved: the second session's page is the
    page of its run alone. *)
Lemma fair_sessions_finish_witness :
  let g := demo_genai (inr demo_summary) in
  nth_error (fst (@run_interleaved demo_pdf g [0; 1; 0; 1; 0; 1; 0; 1; 0; 1]
                    (map start_run [flash_session; pro_session]) (mkShared None []))) 1 =
  Some (mkRun pro_session (page (@run_script demo_pdf g pro_session initial_world)) RunDone).
Proof.
  apply (@fair_sessions_finish demo_pdf (demo_genai (inr demo_summary)) (Some "demo-key"));
    [repeat constructor | | reflexivity].
  intros [|[|j]] Hj; simpl in Hj; [vm_compute; lia | vm_compute; lia | lia].
Defined.
Lemma interleaved_requests_shuffle_witness :
  let g := demo_genai (inr demo_summary) in
  let sched := [0; 1; 1; 0; 1; 0; 0; 1; 1; 0] in
  exists new,
    sh_requests (snd (@run_interleaved demo_pdf g sched
                        (map start_run [flash_session; pro_session]) (mkShared None []))) =
      ([] ++ new)%list /\
    interleaves (fun i =>
                   match nth_error [flash_session; pro_session] i with
                   | Some s =>
                       sh_requests (snd (@run_interleaved demo_pdf g
                                           (repeat 0 (count_occ Nat.eq_dec sched i))
                                           [start_run s] (mkShared None [])))
                   | None => []
                   end) new.
Proof.
  apply (@interleaved_requests_shuffle demo_pdf (demo_genai (inr demo_summary))
           (Some "demo-key")).
  repeat constructor.
Defined.
End Sessions.
